(** * Vehicle classifier API: inference serving and correction feedback

    A shallow embedding of the two FastAPI services of the repository,

    - [src/app/main.py] with [src/app/utils.py] (module [Main]): arg-max
      decoding, single and batch prediction;
    - [src/scripts/app.py] (module [Scripts]): softmax decoding, the
      correction store and the retrain trigger;

    followed by the properties of the specification that concern them.

    Python exceptions are values of [exn]; a handler is a computation in a
    state-and-exception monad whose state holds the module globals, the
    disk and the chronological list of observable events (log lines,
    upload reads, engine invocations).  PIL, NumPy, onnxruntime and the
    operating system are collaborators the services call into: they are
    the fields of the class [Platform].

    A score is a float: a rational when it is finite, and otherwise an
    infinity or a NaN, which NumPy orders and propagates in its own way
    and which JSON cannot hold.  A [JSONResponse] is rendered when it is
    constructed, so that constructing one may raise. *)

From Stdlib Require Import ZArith QArith List String Ascii Lia Bool.
From stdpp Require Import base gmap strings pretty.
Import ListNotations.

#[local] Open Scope string_scope.

(** ** Python values *)

(** Instances of Python's [Exception].  [HTTPException] is FastAPI's, every
    other exception class is kept by name. *)
Inductive exn : Type :=
| HTTPException (status : Z) (detail : string)
| PyException (cls : string) (msg : string).

Inductive result (A : Type) : Type :=
| Ok (a : A)
| Raise (e : exn).
Arguments Ok {A} a.
Arguments Raise {A} e.

(** A floating-point number.  A finite one is a rational and is kept as
    such, with exact comparisons; the others are the two infinities and
    the NaN of IEEE 754, which a NumPy array may hold as well. *)
Inductive float : Type :=
| Finite (q : Q)
| PosInf
| NegInf
| NaN.

Definition is_nan (x : float) : bool :=
  match x with
  | NaN => true
  | _ => false
  end.

(** [math.isfinite(x)] *)
Definition is_finite (x : float) : bool :=
  match x with
  | Finite _ => true
  | _ => false
  end.

(** [x <= y]: false as soon as one side is NaN. *)
Definition float_le (x y : float) : bool :=
  match x, y with
  | NaN, _ => false
  | _, NaN => false
  | NegInf, _ => true
  | _, PosInf => true
  | Finite a, Finite b => Qle_bool a b
  | _, _ => false
  end.

(** [x < y] *)
Definition float_lt (x y : float) : bool :=
  float_le x y && negb (float_le y x).

(** JSON-serialisable values; a dict keeps its keys in insertion order. *)
#[local] Unset Elimination Schemes.
Inductive json : Type :=
| JBool (b : bool)
| JInt (n : Z)
| JFloat (x : float)
| JStr (s : string)
| JList (l : list json)
| JDict (d : list (string * json)).
#[local] Set Elimination Schemes.

Fixpoint dict_get (k : string) (d : list (string * json)) : option json :=
  match d with
  | [] => None
  | (k', v) :: d' => if String.eqb k k' then Some v else dict_get k d'
  end.

(** [d[k] = v] *)
Fixpoint dict_set (k : string) (v : json) (d : list (string * json))
  : list (string * json) :=
  match d with
  | [] => [(k, v)]
  | (k', v') :: d' =>
      if String.eqb k k' then (k, v) :: d' else (k', v') :: dict_set k v d'
  end.

(** Field access on a JSON value that is expected to be a dict. *)
Definition field (k : string) (j : json) : option json :=
  match j with
  | JDict d => dict_get k d
  | _ => None
  end.

(** A rendered [JSONResponse]: its status and the value that its body
    encodes. *)
Record response : Type := JSONResponse { status_code : Z; content : json }.

(** The first of the values that is there. *)
Fixpoint first_some {A} (l : list (option A)) : option A :=
  match l with
  | [] => None
  | Some x :: _ => Some x
  | None :: l' => first_some l'
  end.

(** What [json.dumps(content, allow_nan=False)] refuses: the first
    float of the content, in the order of the encoding, that is an
    infinity or a NaN. *)
Fixpoint refused (j : json) : option float :=
  match j with
  | JFloat x => if is_finite x then None else Some x
  | JList l => first_some (map refused l)
  | JDict d => first_some (map (fun kv => refused (snd kv)) d)
  | _ => None
  end.

(** [fastapi.UploadFile]: [contents] is what [await file.read()] yields. *)
Record UploadFile : Type := {
  filename : string;
  content_type : option string;
  contents : string
}.

(** [onnxruntime.NodeArg] *)
Record NodeArg : Type := { name : string; shape : string }.

(** A NumPy array of model scores with a leading batch axis: a list of
    rows of floats. *)
Definition ndarray : Type := list (list float).

(** Observable events. *)
Inductive event : Type :=
| Log (level msg : string)        (* logger.info / logger.error *)
| Print (msg : string)            (* print *)
| PrintExc (e : exn)              (* traceback.print_exc / format_exc *)
| ReadUpload (fname : string)     (* await file.read() *)
| SessionRun.                     (* session.run: one inference call *)

(** Number of inference calls among the events. *)
Fixpoint inference_calls (l : list event) : nat :=
  match l with
  | [] => 0
  | SessionRun :: l' => S (inference_calls l')
  | _ :: l' => inference_calls l'
  end.

(** The uploads read among the events, in order. *)
Fixpoint uploads_read (l : list event) : list string :=
  match l with
  | [] => []
  | ReadUpload fname :: l' => fname :: uploads_read l'
  | _ :: l' => uploads_read l'
  end.

(** ** The collaborators *)

Class Platform : Type := {
  Image : Type;
  Tensor : Type;
  Session : Type;
  FS : Type;
  (* PIL *)
  image_open : string -> result Image;
  image_convert : string -> Image -> result Image;
  image_mode : Image -> string;
  image_resize : Z * Z -> option string -> Image -> Image;
  image_save : string -> Image -> FS -> result FS;
  (* np.array(img).astype(float32) / 255.0, transposed to (C, H, W), with
     a leading batch axis *)
  image_to_tensor : Image -> Tensor;
  (* float32 arithmetic of NumPy, on the values an array holds *)
  np_sub : float -> float -> float;
  np_exp : float -> float;
  np_sum : list float -> float;
  np_div : float -> float -> float;
  (* float arithmetic of Python, on finite operands whose result is
     finite: a finite value times 100, a count divided by 50 *)
  float_mul : Q -> Q -> Q;
  float_div : Q -> Q -> Q;
  (* onnxruntime *)
  InferenceSession : string -> FS -> result Session;
  get_inputs : Session -> list NodeArg;
  get_outputs : Session -> list NodeArg;
  session_run : Session -> option (list string) -> string * Tensor
                -> result (list ndarray);
  (* os *)
  getenv : string -> option string;
  path_exists : string -> FS -> bool;
  listdir : string -> FS -> result (list string);
  makedirs : string -> FS -> result FS;
  (* str(e), and the format specification .3f *)
  str_exn : exn -> string;
  format_3f : float -> string;
  (* json: the text of the ValueError for a float that the encoder
     refuses, [Out of range float values are not JSON compliant],
     which ends with the repr of the float from Python 3.13 on *)
  out_of_range_text : float -> string
}.

(** The [ValueError] of the encoder. *)
Definition out_of_range `{Platform} (x : float) : exn :=
  PyException "ValueError" (out_of_range_text x).

(** [JSONResponse(content, status_code=...)]: Starlette renders the body
    in the constructor, with [allow_nan=False], so that the constructor
    raises on a content that holds an infinity or a NaN. *)
Definition json_response `{Platform} (status_code : Z) (content : json)
  : result response :=
  match refused content with
  | None => Ok (JSONResponse status_code content)
  | Some x => Raise (out_of_range x)
  end.

(** ** The state-and-exception monad of a handler *)

Section Monad.
Context {S : Type}.

Definition Comp (A : Type) : Type := S -> result A * S.

Definition ret {A} (a : A) : Comp A := fun s => (Ok a, s).

Definition bind {A B} (c : Comp A) (k : A -> Comp B) : Comp B :=
  fun s =>
    match c s with
    | (Ok a, s') => k a s'
    | (Raise e, s') => (Raise e, s')
    end.

Definition raise {A} (e : exn) : Comp A := fun s => (Raise e, s).

(** [try: c  except Exception as e: h e]; what [c] did to the state
    before raising stays done. *)
Definition try_except {A} (c : Comp A) (h : exn -> Comp A) : Comp A :=
  fun s =>
    match c s with
    | (Ok a, s') => (Ok a, s')
    | (Raise e, s') => h e s'
    end.

Definition lift {A} (r : result A) : Comp A := fun s => (r, s).

Definition gets {A} (f : S -> A) : Comp A := fun s => (Ok (f s), s).

Definition modify (f : S -> S) : Comp unit := fun s => (Ok tt, f s).
End Monad.
Arguments Comp S A : clear implicits.

Notation "x <- c ;; k" := (bind c (fun x => k))
  (at level 100, c at next level, right associativity).
Notation "c ;; k" := (bind c (fun _ => k))
  (at level 100, right associativity).

(** [l[0]] *)
Definition index0 {A} (l : list A) : result A :=
  match l with
  | x :: _ => Ok x
  | [] => Raise (PyException "IndexError" "list index out of range")
  end.

(** [l[i]] for a non-negative [i] *)
Definition index {A} (i : nat) (l : list A) : result A :=
  match nth_error l i with
  | Some x => Ok x
  | None => Raise (PyException "IndexError" "list index out of range")
  end.

(** The line feed of a Python string literal. *)
Definition nl : string := String (ascii_of_nat 10) EmptyString.

(** [o.startswith(p)] for a string [o] that may be [None] *)
Definition startswith (o : option string) (p : string) : result bool :=
  match o with
  | Some s => Ok (String.prefix p s)
  | None => Raise (PyException "AttributeError"
                     "'NoneType' object has no attribute 'startswith'")
  end.

(** ** [posixpath] *)

Definition is_slash (c : ascii) : bool := Ascii.eqb c "/".

Definition endswith_slash (s : string) : bool :=
  match rev (list_ascii_of_string s) with
  | c :: _ => is_slash c
  | [] => false
  end.

Definition join2 (path b : string) : string :=
  if String.prefix "/" b then b
  else if (String.eqb path "" || endswith_slash path)%bool then path ++ b
  else path ++ "/" ++ b.

(** [os.path.join(a, *p)] *)
Definition path_join (a : string) (p : list string) : string :=
  fold_left join2 p a.

Fixpoint drop_until_slash (r : list ascii) : list ascii :=
  match r with
  | [] => []
  | c :: r' => if is_slash c then r else drop_until_slash r'
  end.

Fixpoint strip_slashes (r : list ascii) : list ascii :=
  match r with
  | [] => []
  | c :: r' => if is_slash c then strip_slashes r' else r
  end.

(** [os.path.dirname(p)]: the part up to the last slash, without its
    trailing slashes unless it consists of slashes only. *)
Definition dirname (p : string) : string :=
  let head := drop_until_slash (rev (list_ascii_of_string p)) in
  if forallb is_slash head then string_of_list_ascii (rev head)
  else string_of_list_ascii (rev (strip_slashes head)).

(** ** NumPy indexing and reductions *)

(** [a[i]] on the first axis of an array, for a non-negative [i] *)
Definition np_getitem {A} (i : nat) (a : list A) : result A :=
  match nth_error a i with
  | Some x => Ok x
  | None =>
      Raise (PyException "IndexError"
               ("index " ++ pretty i
                ++ " is out of bounds for axis 0 with size "
                ++ pretty (length a)))
  end.

(** The scan of [np.argmax] over [x :: l], left to right: [best] is the
    running maximum, found at [besti]; [i] is the position of the head
    of [l].  A value replaces the running maximum unless it is below or
    equal to it, so that a NaN replaces it; the scan stops at a NaN. *)
Fixpoint argmax_from (besti : nat) (best : float) (i : nat) (l : list float)
  : nat :=
  match l with
  | [] => besti
  | x :: l' =>
      if is_nan best then besti
      else if float_le x best then argmax_from besti best (S i) l'
      else argmax_from i x (S i) l'
  end.

(** The scan of [np.max], which propagates a NaN likewise. *)
Fixpoint max_from (best : float) (l : list float) : float :=
  match l with
  | [] => best
  | x :: l' =>
      if is_nan best then best
      else if float_le x best then max_from best l'
      else max_from x l'
  end.

(** [np.argmax] and [np.max] of a flat vector *)
Definition np_argmax (v : list float) : result nat :=
  match v with
  | [] => Raise (PyException "ValueError"
                   "attempt to get argmax of an empty sequence")
  | x :: l => Ok (argmax_from 0 x 1 l)
  end.

Definition np_max (v : list float) : result float :=
  match v with
  | [] => Raise (PyException "ValueError"
                   ("zero-size array to reduction operation maximum "
                    ++ "which has no identity"))
  | x :: l => Ok (max_from x l)
  end.

(** [x], found at position [i], is the maximum of [v] in the sense of
    NumPy.  If [x] is not a NaN, no value of [v] exceeds it (none is a
    NaN, then) and the values before position [i] are strictly below
    it; if [x] is a NaN, it is the first NaN of [v]. *)
Definition maximum_at (v : list float) (i : nat) (x : float) : Prop :=
  v !! i = Some x
  /\ if is_nan x
     then forall j y, j < i -> v !! j = Some y -> is_nan y = false
     else Forall (fun y => float_le y x = true) v
          /\ forall j y, j < i -> v !! j = Some y -> float_lt y x = true.

(** ** Python's [round(x, ndigits)] *)

(** Nearest integer, ties to even. *)
Definition round_half_even (q : Q) : Z :=
  let n := Qnum q in
  let d := Zpos (Qden q) in
  let fl := (n / d)%Z in
  let r := (2 * (n mod d))%Z in
  if (r <? d)%Z then fl
  else if (d <? r)%Z then (fl + 1)%Z
  else if Z.even fl then fl else (fl + 1)%Z.

(** The decimal with [ndigits] places nearest to [q]: the value that the
    JSON body shows. *)
Definition py_round (q : Q) (ndigits : nat) : Q :=
  let p := Z.pow 10 (Z.of_nat ndigits) in
  Qmake (round_half_even (q * inject_Z p)) (Z.to_pos p).

(** [round(x, ndigits)] of a float: an infinity or a NaN is returned as
    it is. *)
Definition float_round (x : float) (ndigits : nat) : float :=
  match x with
  | Finite q => Finite (py_round q ndigits)
  | _ => x
  end.

(** ** [src/app/utils.py] and [src/app/main.py] *)

Module Main.
Section WithPlatform.
Context `{Platform}.

(** Module globals, the disk and the events so far.  [session] is
    [None] until [load_model] assigns it. *)
Record state : Type := {
  session : option Session;
  disk : FS;
  events : list event
}.

#[local] Abbreviation M := (Comp state).

Definition emit (e : event) : M unit :=
  modify (fun st => {| session := session st; disk := disk st;
                       events := events st ++ [e] |}).

Definition logger_info (msg : string) : M unit := emit (Log "INFO" msg).
Definition logger_error (msg : string) : M unit := emit (Log "ERROR" msg).

(** [await file.read()] *)
Definition read (file : UploadFile) : M string :=
  emit (ReadUpload (filename file)) ;; ret (contents file).

(** [session.run(output_names, input_feed)] *)
Definition run (sess : Session) (output_names : option (list string))
           (input_feed : string * Tensor) : M (list ndarray) :=
  emit SessionRun ;; lift (session_run sess output_names input_feed).

(** *** utils.py *)

Definition preprocess_image (image : Image) (input_size : Z * Z) : Tensor :=
  let image := image_resize input_size (Some "BILINEAR") image in
  image_to_tensor image.

Definition postprocess_output (output : ndarray) : result (Z * float) :=
  match np_argmax (concat output) with
  | Raise e => Raise e
  | Ok i =>
      let pred_index := Z.of_nat i in
      match np_max (concat output) with
      | Raise e => Raise e
      | Ok confidence => Ok (pred_index, confidence)
      end
  end.

Definition classes : list string := ["front_vehicle"; "rear_vehicle"].

Definition get_class_name (index : Z) : string :=
  if ((0 <=? index)%Z && (index <? Z.of_nat (length classes))%Z)%bool
  then nth (Z.to_nat index) classes ""
  else "unknown".

(** *** main.py *)

Definition MODEL_PATH : string := "app/model/classifier.onnx".
Definition MODEL_INPUT_SIZE : Z * Z := (224%Z, 224%Z).

(** The state of a fresh process: [session = None]. *)
Definition initial (d : FS) : state :=
  {| session := None; disk := d; events := [] |}.

Definition set_session (sess : Session) : M unit :=
  modify (fun st => {| session := Some sess; disk := disk st;
                       events := events st |}).

Definition load_model : M unit :=
  try_except
    (d <- gets disk ;;
     (if negb (path_exists MODEL_PATH d)
      then raise (PyException "FileNotFoundError"
                    ("Model file not found at " ++ MODEL_PATH))
      else ret tt) ;;
     logger_info ("Loading ONNX model from " ++ MODEL_PATH) ;;
     sess <- lift (InferenceSession MODEL_PATH d) ;;
     set_session sess ;;
     input <- lift (index0 (get_inputs sess)) ;;
     let input_name := name input in
     input' <- lift (index0 (get_inputs sess)) ;;
     let input_shape := shape input' in
     output <- lift (index0 (get_outputs sess)) ;;
     let output_name := name output in
     logger_info "Model loaded successfully!" ;;
     logger_info ("Input: " ++ input_name ++ " - Shape: " ++ input_shape) ;;
     logger_info ("Output: " ++ output_name))
    (fun e =>
       logger_error ("Failed to load model: " ++ str_exn e) ;;
       raise e).

(** The startup event of the application: FastAPI runs [load_model]
    before it serves any request, and an exception that escapes the
    startup handler aborts the start of the application. *)
Inductive lifecycle : Type :=
| Serving (st : state)
| StartupFailed (e : exn) (st : state).

Definition startup (d : FS) : lifecycle :=
  match load_model (initial d) with
  | (Ok _, st) => Serving st
  | (Raise e, st) => StartupFailed e st
  end.

(** The dict of a prediction, shared by [predict] and [batch_predict]. *)
Definition prediction (label : string) (pred_index : Z) (confidence : float)
  : json :=
  JDict [("label", JStr label);
         ("class_index", JInt pred_index);
         ("confidence", JFloat (float_round confidence 4))].

Definition predict (file : UploadFile) : M response :=
  s <- gets session ;;
  match s with
  | None => raise (HTTPException 503 "Model not loaded")
  | Some sess =>
      is_image <- lift (startswith (content_type file) "image/") ;;
      if negb is_image
      then raise (HTTPException 400
                    "Invalid file type. Please upload an image file.")
      else
        try_except
          (logger_info ("Processing image: " ++ filename file) ;;
           contents <- read file ;;
           image <- lift (image_open contents) ;;
           image <- lift (image_convert "RGB" image) ;;
           let input_data := preprocess_image image MODEL_INPUT_SIZE in
           input <- lift (index0 (get_inputs sess)) ;;
           let input_name := name input in
           output <- lift (index0 (get_outputs sess)) ;;
           let output_name := name output in
           logger_info "Running inference..." ;;
           outputs <- run sess (Some [output_name]) (input_name, input_data) ;;
           output0 <- lift (index0 outputs) ;;
           pc <- lift (postprocess_output output0) ;;
           let '(pred_index, confidence) := pc in
           let label := get_class_name pred_index in
           logger_info ("Prediction: " ++ label ++ " (confidence: "
                        ++ format_3f confidence ++ ")") ;;
           lift (json_response 200
                   (JDict [("success", JBool true);
                           ("prediction",
                            prediction label pred_index confidence);
                           ("filename", JStr (filename file))])))
          (fun e =>
             logger_error ("Prediction error: " ++ str_exn e) ;;
             raise (HTTPException 500
                      ("Prediction failed: " ++ str_exn e)))
  end.

(** The body of the [try] of the loop of [batch_predict]: the outcome
    dict of a file that is classified. *)
Definition batch_try (sess : Session) (file : UploadFile) : M json :=
  contents <- read file ;;
  image <- lift (image_open contents) ;;
  image <- lift (image_convert "RGB" image) ;;
  let input_data := preprocess_image image MODEL_INPUT_SIZE in
  input <- lift (index0 (get_inputs sess)) ;;
  let input_name := name input in
  output <- lift (index0 (get_outputs sess)) ;;
  let output_name := name output in
  outputs <- run sess (Some [output_name]) (input_name, input_data) ;;
  output0 <- lift (index0 outputs) ;;
  pc <- lift (postprocess_output output0) ;;
  let '(pred_index, confidence) := pc in
  let label := get_class_name pred_index in
  ret (JDict [("filename", JStr (filename file));
              ("success", JBool true);
              ("prediction", prediction label pred_index confidence)]).

(** Its [except Exception as e] clause. *)
Definition batch_except (file : UploadFile) (e : exn) : M json :=
  ret (JDict [("filename", JStr (filename file));
              ("success", JBool false);
              ("error", JStr (str_exn e))]).

(** [for file in files: ... results.append(...)] *)
Fixpoint batch_loop (sess : Session) (files : list UploadFile)
         (results : list json) : M (list json) :=
  match files with
  | [] => ret results
  | file :: files' =>
      r <- try_except (batch_try sess file) (batch_except file) ;;
      batch_loop sess files' (results ++ [r])
  end.

Definition batch_predict (files : list UploadFile) : M response :=
  s <- gets session ;;
  match s with
  | None => raise (HTTPException 503 "Model not loaded")
  | Some sess =>
      if (10 <? length files)%nat
      then raise (HTTPException 400 "Maximum 10 images allowed per batch")
      else
        results <- batch_loop sess files [] ;;
        lift (json_response 200
                (JDict [("success", JBool true);
                        ("total_images", JInt (Z.of_nat (length files)));
                        ("results", JList results)]))
  end.

(** [GET /] and [GET /health] *)
Definition root : M json :=
  s <- gets session ;;
  ret (JDict [("message", JStr "Vehicle Classification API is running!");
              ("version", JStr "1.0.0");
              ("status", JStr "healthy");
              ("model_loaded",
               JBool (match s with Some _ => true | None => false end))]).

Definition health_check : M json :=
  s <- gets session ;;
  match s with
  | None => raise (HTTPException 503 "Model not loaded")
  | Some _ => ret (JDict [("status", JStr "healthy");
                          ("model", JStr "loaded")])
  end.

(** *** Vocabulary of the properties *)

(** The states in which the application handles a request: the state
    that a successful startup leaves, and the states that the handlers
    lead to from there. *)
Inductive serving : state -> Prop :=
| serving_startup d st :
    startup d = Serving st -> serving st
| serving_predict st file r st' :
    serving st -> predict file st = (r, st') -> serving st'
| serving_batch_predict st files r st' :
    serving st -> batch_predict files st = (r, st') -> serving st'.

(** A computation that leaves the session as it is. *)
Definition keeps_session {A} (c : M A) : Prop :=
  forall st r st', c st = (r, st') -> session st' = session st.

(** The two stages of a batch item that the specification names.
    Decoding: PIL opens the bytes of the upload and converts the image
    to RGB. *)
Definition decoded (file : UploadFile) : result Image :=
  match image_open (contents file) with
  | Ok image => image_convert "RGB" image
  | Raise e => Raise e
  end.

(** Inference: the engine is run on the resized image, fed under the
    name of the first input of the model and asked for its first
    output; the scores are the first array of its answer. *)
Definition inferred (sess : Session) (image : Image) : result ndarray :=
  match get_inputs sess, get_outputs sess with
  | input :: _, output :: _ =>
      match session_run sess (Some [name output])
              (name input, preprocess_image image MODEL_INPUT_SIZE) with
      | Ok (scores :: _) => Ok scores
      | Ok [] => Raise (PyException "IndexError" "list index out of range")
      | Raise e => Raise e
      end
  | _, _ => Raise (PyException "IndexError" "list index out of range")
  end.

(** The outcome dicts of the specification. *)
Definition success_outcome (file : UploadFile) (label : string)
           (class_index : Z) (confidence : float) : json :=
  JDict [("filename", JStr (filename file));
         ("success", JBool true);
         ("prediction",
          JDict [("label", JStr label);
                 ("class_index", JInt class_index);
                 ("confidence", JFloat (float_round confidence 4))])].

Definition failure_outcome (file : UploadFile) (e : exn) : json :=
  JDict [("filename", JStr (filename file));
         ("success", JBool false);
         ("error", JStr (str_exn e))].

(** [r] is the outcome that the specification gives [file]: the failure
    dict with the text of the exception when decoding or inference
    raises, or when there is no score to decide on, and otherwise the
    success dict with the decision of [postprocess_output]. *)
Definition specified_outcome (sess : Session) (file : UploadFile) (r : json)
  : Prop :=
  match decoded file with
  | Raise e => r = failure_outcome file e
  | Ok image =>
      match inferred sess image with
      | Raise e => r = failure_outcome file e
      | Ok scores =>
          match postprocess_output scores with
          | Raise e => r = failure_outcome file e
          | Ok (class_index, confidence) =>
              r = success_outcome file (get_class_name class_index)
                    class_index confidence
          end
      end
  end.

(** The confidence of [file], when it is classified, is finite. *)
Definition finite_confidence (sess : Session) (file : UploadFile) : Prop :=
  forall image scores class_index confidence,
    decoded file = Ok image ->
    inferred sess image = Ok scores ->
    postprocess_output scores = Ok (class_index, confidence) ->
    is_finite confidence = true.

(** [evs] is the trace of one batch item: the one read of the upload
    and at most one inference call. *)
Definition item_trace (file : UploadFile) (evs : list event) : Prop :=
  uploads_read evs = [filename file] /\ inference_calls evs <= 1.

(** The engine, run on the tensor of the image that [file] decodes to,
    returns [output] as its first array: [file] goes through every
    stage of [predict] up to the decision. *)
Inductive scores_of (sess : Session) (file : UploadFile) (output : ndarray)
  : Prop :=
| Scores (ct : string) (image0 image : Image) (input out : NodeArg)
         (inputs outputs : list NodeArg) (rest : list ndarray) :
    content_type file = Some ct ->
    String.prefix "image/" ct = true ->
    image_open (contents file) = Ok image0 ->
    image_convert "RGB" image0 = Ok image ->
    get_inputs sess = input :: inputs ->
    get_outputs sess = out :: outputs ->
    session_run sess (Some [name out])
      (name input, preprocess_image image MODEL_INPUT_SIZE)
    = Ok (output :: rest) ->
    scores_of sess file output.

(** The confidence that a response of [predict] reports. *)
Definition reported_confidence (r : response) : option float :=
  match field "prediction" (content r) with
  | Some p =>
      match field "confidence" p with
      | Some (JFloat c) => Some c
      | _ => None
      end
  | None => None
  end.

(** A score between 0 and 1. *)
Definition unit_score (y : float) : Prop :=
  match y with
  | Finite q => (0 <= q <= 1)%Q
  | _ => False
  end.

(** [st'] is [st] with the events [evs] added: same session, same disk. *)
Definition adds (st : state) (evs : list event) (st' : state) : Prop :=
  st' = {| session := session st; disk := disk st;
           events := events st ++ evs |}.

(** A computation that only adds events to the state. *)
Definition only_logs {A} (c : M A) : Prop :=
  forall st r st', c st = (r, st') -> exists evs, adds st evs st'.

(** The same upload under another content type. *)
Definition with_content_type (ct : option string) (file : UploadFile)
  : UploadFile :=
  {| filename := filename file; content_type := ct;
     contents := contents file |}.
End WithPlatform.
End Main.

(** ** [src/scripts/app.py] *)

Module Scripts.
Section WithPlatform.
Context `{Platform}.

Record state : Type := {
  ort_session : option Session;
  disk : FS;
  events : list event
}.

#[local] Abbreviation M := (Comp state).

Definition emit (e : event) : M unit :=
  modify (fun st => {| ort_session := ort_session st; disk := disk st;
                       events := events st ++ [e] |}).

Definition print (msg : string) : M unit := emit (Print msg).

Definition set_disk (d : FS) : M unit :=
  modify (fun st => {| ort_session := ort_session st; disk := d;
                       events := events st |}).

Definition set_session (sess : Session) : M unit :=
  modify (fun st => {| ort_session := Some sess; disk := disk st;
                       events := events st |}).

Definition read (file : UploadFile) : M string :=
  emit (ReadUpload (filename file)) ;; ret (contents file).

Definition run (sess : Session) (output_names : option (list string))
           (input_feed : string * Tensor) : M (list ndarray) :=
  emit SessionRun ;; lift (session_run sess output_names input_feed).

Definition os_makedirs (path : string) : M unit :=
  d <- gets disk ;; d' <- lift (makedirs path d) ;; set_disk d'.

Definition os_listdir (path : string) : M (list string) :=
  d <- gets disk ;; lift (listdir path d).

Definition save (image : Image) (path : string) : M unit :=
  d <- gets disk ;; d' <- lift (image_save path image d) ;; set_disk d'.

(** *** Configuration *)

Definition model_path : string :=
  match getenv "MODEL_PATH" with
  | Some p => p
  | None => "models/best.onnx"
  end.
Definition corrections_dir : string := "corrections".
Definition retrain_threshold : Z := 50.
Definition img_size : Z := 224.
Definition class_names : list string := ["front"; "rear"].

(** The directories created when the module is imported. *)
Definition directories : list string :=
  ["corrections/front"; "corrections/rear";
   "dataset/train/front"; "dataset/train/rear";
   "dataset/val/front"; "dataset/val/rear"; "models"].

Fixpoint for_each {A} (l : list A) (body : A -> M unit) : M unit :=
  match l with
  | [] => ret tt
  | x :: l' => body x ;; for_each l' body
  end.

(** The module body: the directories, then [ort_session = None]. *)
Definition initial (d : FS) : state :=
  {| ort_session := None; disk := d; events := [] |}.

Definition module_body : M unit := for_each directories os_makedirs.

(** *** Model runtime *)

Definition load_model : M bool :=
  try_except
    (d <- gets disk ;;
     if negb (path_exists model_path d)
     then print ("⚠ Model not found at " ++ model_path) ;; ret false
     else
       sess <- lift (InferenceSession model_path d) ;;
       set_session sess ;;
       print "✅ Model loaded successfully!" ;;
       ret true)
    (fun e =>
       print ("❌ Error loading model: " ++ str_exn e) ;;
       emit (PrintExc e) ;;
       ret false).

Definition preprocess_image (image : Image) : result Tensor :=
  let img := image_resize (img_size, img_size) None image in
  match (if negb (String.eqb (image_mode img) "RGB")
         then image_convert "RGB" img else Ok img) with
  | Raise e => Raise e
  | Ok img => Ok (image_to_tensor img)
  end.

(** [round(float(p) * 100, 2)]: an infinity or a NaN stays what it
    is. *)
Definition percent (p : float) : float :=
  match p with
  | Finite q => Finite (py_round (float_mul q 100) 2)
  | _ => p
  end.

(** [{class_names[i]: percent(probs[i]) for i in range(n)}], from index
    [i] on, added to [acc]. *)
Fixpoint probabilities (probs : list float) (i n : nat)
         (acc : list (string * json)) : result (list (string * json)) :=
  match n with
  | O => Ok acc
  | S n' =>
      match index i class_names with
      | Raise e => Raise e
      | Ok k =>
          match np_getitem i probs with
          | Raise e => Raise e
          | Ok p =>
              probabilities probs (S i) n' (dict_set k (JFloat (percent p)) acc)
          end
      end
  end.

Definition predict_image (image : Image) : M (list (string * json)) :=
  s <- gets ort_session ;;
  match s with
  | None => raise (HTTPException 500 "Model not loaded")
  | Some sess =>
      try_except
        (input_tensor <- lift (preprocess_image image) ;;
         input <- lift (index0 (get_inputs sess)) ;;
         let input_name := name input in
         outputs <- run sess None (input_name, input_tensor) ;;
         output0 <- lift (index0 outputs) ;;
         logits <- lift (np_getitem 0 output0) ;;
         m <- lift (np_max logits) ;;
         let exp_logits := map (fun x => np_exp (np_sub x m)) logits in
         let total := np_sum exp_logits in
         let probs := map (fun x => np_div x total) exp_logits in
         pred_idx <- lift (np_argmax probs) ;;
         predicted_class <- lift (index pred_idx class_names) ;;
         p <- lift (np_getitem pred_idx probs) ;;
         dist <- lift (probabilities probs 0 (length class_names) []) ;;
         ret [("predicted_class", JStr predicted_class);
              ("confidence", JFloat (percent p));
              ("probabilities", JDict dist)])
        (fun e =>
           print ("❌ Prediction failed: " ++ str_exn e) ;;
           emit (PrintExc e) ;;
           raise (HTTPException 500 ("Prediction error: " ++ str_exn e)))
  end.

Definition startup_event : M unit :=
  print (nl ++ "🚗 Starting Vehicle Classification API") ;;
  ok <- load_model ;;
  if ok then print ("✅ API ready for requests" ++ nl)
  else print ("⚠️ API started but model not loaded" ++ nl).

(** A process start: the module body, then the startup event.  An
    exception that escapes either keeps the service from starting. *)
Definition boot (d : FS) : result unit * state :=
  (module_body ;; startup_event) (initial d).

(** *** Endpoints.  [now] is the reading of the clock, as the handler
    formats it. *)

Definition root : M json :=
  s <- gets ort_session ;;
  ret (JDict [("service", JStr "Vehicle Classification API");
              ("version", JStr "1.0.0");
              ("status", JStr "running");
              ("model_loaded",
               JBool (match s with Some _ => true | None => false end));
              ("endpoints",
               JDict [("predict",
                       JStr "/predict - POST image file to get classification");
                      ("correct",
                       JStr "/correct - POST to submit correction");
                      ("stats", JStr "/stats - GET current statistics");
                      ("health", JStr "/health - GET health check")])]).

Definition health_check (now : string) : M json :=
  s <- gets ort_session ;;
  s' <- gets ort_session ;;
  ret (JDict [("status",
               JStr (match s with Some _ => "healthy" | None => "degraded" end));
              ("model_loaded",
               JBool (match s' with Some _ => true | None => false end));
              ("timestamp", JStr now)]).

Definition predict (now : string) (file : UploadFile) : M response :=
  try_except
    (is_image <- lift (startswith (content_type file) "image/") ;;
     (if negb is_image
      then raise (HTTPException 400
                    "Invalid file type. Only images are accepted.")
      else ret tt) ;;
     contents <- read file ;;
     image <- lift (image_open contents) ;;
     image <- lift (image_convert "RGB" image) ;;
     result <- predict_image image ;;
     let result := dict_set "success" (JBool true) result in
     let result := dict_set "filename" (JStr (filename file)) result in
     let result := dict_set "timestamp" (JStr now) result in
     lift (json_response 200 (JDict result)))
    (fun e =>
       match e with
       | HTTPException _ _ => raise e
       | _ =>
           print ("❌ Error during prediction:" ++ nl) ;;
           emit (PrintExc e) ;;
           lift (json_response 500
                   (JDict [("success", JBool false);
                           ("error", JStr (str_exn e));
                           ("message", JStr "Prediction failed")]))
       end).

Definition correct_prediction (now : string) (file : UploadFile)
           (predicted_class correct_class : string) : M response :=
  try_except
    ((if negb (existsb (String.eqb correct_class) class_names)
      then raise (HTTPException 400
                    "Invalid class. Must be one of: ['front', 'rear']")
      else ret tt) ;;
     contents <- read file ;;
     image <- lift (image_open contents) ;;
     image <- lift (image_convert "RGB" image) ;;
     let timestamp := now in
     let filename := timestamp ++ "_" ++ filename file in
     let save_path := path_join corrections_dir [correct_class; filename] in
     os_makedirs (dirname save_path) ;;
     save image save_path ;;
     print ("✅ Correction saved: " ++ predicted_class ++ " → "
            ++ correct_class) ;;
     front <- os_listdir "corrections/front" ;;
     let corrections_front := Z.of_nat (length front) in
     rear <- os_listdir "corrections/rear" ;;
     let corrections_rear := Z.of_nat (length rear) in
     let total_corrections := (corrections_front + corrections_rear)%Z in
     let retraining_triggered :=
       (retrain_threshold <=? total_corrections)%Z in
     let response :=
       [("success", JBool true);
        ("message", JStr "Correction saved successfully");
        ("correction_count", JInt total_corrections);
        ("threshold", JInt retrain_threshold);
        ("retraining_triggered", JBool retraining_triggered);
        ("corrections_by_class",
         JDict [("front", JInt corrections_front);
                ("rear", JInt corrections_rear)])] in
     let response :=
       if retraining_triggered
       then dict_set "message"
              (JStr ("Correction saved successfully"
                     ++ " - Retraining will be triggered")) response
       else response in
     lift (json_response 200 (JDict response)))
    (fun e =>
       print ("❌ Correction error:" ++ nl) ;;
       emit (PrintExc e) ;;
       lift (json_response 500
               (JDict [("success", JBool false);
                       ("error", JStr (str_exn e));
                       ("message", JStr "Correction failed")]))).

(** [len(os.listdir(path)) if os.path.exists(path) else 0] *)
Definition count_entries (path : string) : M Z :=
  d <- gets disk ;;
  if path_exists path d
  then l <- os_listdir path ;; ret (Z.of_nat (length l))
  else ret 0%Z.

Definition get_stats : M response :=
  corrections_front <- count_entries "corrections/front" ;;
  corrections_rear <- count_entries "corrections/rear" ;;
  let total_corrections := (corrections_front + corrections_rear)%Z in
  s <- gets ort_session ;;
  lift (json_response 200
         (JDict [("success", JBool true);
                 ("correction_count", JInt total_corrections);
                 ("threshold", JInt retrain_threshold);
                 ("progress_percentage",
                  JFloat (Finite
                            (py_round
                               (float_mul
                                  (float_div (inject_Z total_corrections)
                                     (inject_Z retrain_threshold)) 100) 2)));
                 ("corrections_by_class",
                  JDict [("front", JInt corrections_front);
                         ("rear", JInt corrections_rear)]);
                 ("model_loaded",
                  JBool (match s with Some _ => true | None => false end));
                 ("model_path", JStr model_path)])).

(** *** Vocabulary of the properties *)

(** The tally that a response reports: the total, then the count of
    each class. *)
Definition tally (r : response) : option (Z * Z * Z) :=
  match field "correction_count" (content r),
        field "corrections_by_class" (content r) with
  | Some (JInt total), Some by_class =>
      match field "front" by_class, field "rear" by_class with
      | Some (JInt front), Some (JInt rear) => Some (total, front, rear)
      | _, _ => None
      end
  | _, _ => None
  end.

(** The retrain signal that a response reports. *)
Definition signal (r : response) : option bool :=
  match field "retraining_triggered" (content r) with
  | Some (JBool b) => Some b
  | _ => None
  end.

(** The threshold that a response reports. *)
Definition threshold (r : response) : option Z :=
  match field "threshold" (content r) with
  | Some (JInt n) => Some n
  | _ => None
  end.

(** The number of entries that the listing of a directory of the disk
    enumerates. *)
Definition enumerated (path : string) (d : FS) : result Z :=
  match listdir path d with
  | Ok l => Ok (Z.of_nat (length l))
  | Raise e => Raise e
  end.

(** The same, with the guard of [get_stats]. *)
Definition enumerated_if_exists (path : string) (d : FS) : result Z :=
  if path_exists path d then enumerated path d else Ok 0%Z.

(** What the validation of [correct_prediction] raises. *)
Definition invalid_class : exn :=
  HTTPException 400 "Invalid class. Must be one of: ['front', 'rear']".

(** The tally of the stats query in state [st], or what it raises. *)
Definition stats_tally (st : state) : result (option (Z * Z * Z)) :=
  match fst (get_stats st) with
  | Ok r => Ok (tally r)
  | Raise e => Raise e
  end.

(** [st'] is [st] with the events [evs] added: same session, same disk. *)
Definition adds (st : state) (evs : list event) (st' : state) : Prop :=
  st' = {| ort_session := ort_session st; disk := disk st;
           events := events st ++ evs |}.

(** The softmax of [predict_image]: the distribution of the logits, with
    the operations of the platform. *)
Definition softmax (logits : list float) (m : float) : list float :=
  let exp_logits := map (fun x => np_exp (np_sub x m)) logits in
  let total := np_sum exp_logits in
  map (fun x => np_div x total) exp_logits.

(** The message that a response reports. *)
Definition message (r : response) : option string :=
  match field "message" (content r) with
  | Some (JStr m) => Some m
  | _ => None
  end.

(** The path that [correct_prediction] saves to. *)
Definition save_path (now : string) (file : UploadFile)
           (correct_class : string) : string :=
  path_join corrections_dir [correct_class; now ++ "_" ++ filename file].

(** No slash occurs in [s]. *)
Definition slash_free (s : string) : Prop :=
  forallb (fun c => negb (is_slash c)) (list_ascii_of_string s) = true.
End WithPlatform.
End Scripts.

(** ** A sample platform

    A small concrete platform on which the services run by computation.
    The disk is a table of directories with their entries and a table of
    model artifacts; the model of an artifact emits the same score rows
    for every tensor; an upload decodes to an image unless it is empty.
    Arithmetic on finite values is exact, the exponential is a Taylor
    polynomial, and an operation on an infinity or a NaN gives a NaN. *)

Module Sample.
Record fs : Type := {
  dirs : gmap string (gset string);
  artifacts : gmap string ndarray
}.

(** [os.path.basename(p)] *)
Fixpoint take_until_slash (r : list ascii) : list ascii :=
  match r with
  | [] => []
  | c :: r' => if is_slash c then [] else c :: take_until_slash r'
  end.

Definition basename (p : string) : string :=
  string_of_list_ascii (rev (take_until_slash (rev (list_ascii_of_string p)))).

Definition no_such_file {A} (path : string) : result A :=
  Raise (PyException "FileNotFoundError"
           ("No such file or directory: '" ++ path ++ "'")).

Definition exists_ (path : string) (d : fs) : bool :=
  bool_decide (is_Some (dirs d !! path))
  || bool_decide (is_Some (artifacts d !! path)).

Definition entries_of (path : string) (d : fs) : result (list string) :=
  match dirs d !! path with
  | Some entries => Ok (elements entries)
  | None => no_such_file path
  end.

Definition mkdir_p (path : string) (d : fs) : result fs :=
  match dirs d !! path with
  | Some _ => Ok d
  | None => Ok {| dirs := <[path := ∅]> (dirs d); artifacts := artifacts d |}
  end.

Definition write_image (path : string) (image : string) (d : fs) : result fs :=
  match dirs d !! dirname path with
  | Some entries =>
      Ok {| dirs := <[dirname path := entries ∪ {[basename path]}]> (dirs d);
            artifacts := artifacts d |}
  | None => no_such_file path
  end.

Definition decode (contents : string) : result string :=
  if String.eqb contents ""
  then Raise (PyException "UnidentifiedImageError"
                "cannot identify image file")
  else Ok contents.

Definition open_artifact (path : string) (d : fs) : result ndarray :=
  match artifacts d !! path with
  | Some model => Ok model
  | None => Raise (PyException "NoSuchFile"
                     ("Load model from " ++ path ++ " failed"))
  end.

Fixpoint taylor (x term : Q) (k n : nat) : Q :=
  match n with
  | O => 0
  | S n' =>
      term + taylor x (Qred (term * x / inject_Z (Z.of_nat k))) (S k) n'
  end.

Definition exp (x : Q) : Q := Qred (taylor x 1 1 16).

Definition pad3 (n : Z) : string :=
  if (n <? 10)%Z then "00" ++ pretty n
  else if (n <? 100)%Z then "0" ++ pretty n
  else pretty n.

Definition fixed3 (x : float) : string :=
  match x with
  | Finite q =>
      let m := round_half_even (q * 1000) in
      let a := Z.abs m in
      (if (m <? 0)%Z then "-" else "")
      ++ pretty (a / 1000)%Z ++ "." ++ pad3 (a mod 1000)%Z
  | PosInf => "inf"
  | NegInf => "-inf"
  | NaN => "nan"
  end.

Definition lift1 (f : Q -> Q) (x : float) : float :=
  match x with
  | Finite a => Finite (f a)
  | _ => NaN
  end.

Definition lift2 (f : Q -> Q -> Q) (x y : float) : float :=
  match x, y with
  | Finite a, Finite b => Finite (f a b)
  | _, _ => NaN
  end.

(** Starlette renders an [HTTPException] as its status and detail. *)
Definition render (e : exn) : string :=
  match e with
  | HTTPException status detail => pretty status ++ ": " ++ detail
  | PyException _ msg => msg
  end.

Definition platform : Platform := {|
  Image := string;
  Tensor := string;
  Session := ndarray;
  FS := fs;
  image_open := decode;
  image_convert := fun _ image => Ok image;
  image_mode := fun _ => "RGB";
  image_resize := fun _ _ image => image;
  image_save := write_image;
  image_to_tensor := fun image => image;
  np_sub := lift2 (fun x y => Qred (x - y));
  np_exp := lift1 exp;
  np_sum := fun l => fold_left (lift2 (fun x y => Qred (x + y))) l (Finite 0);
  np_div := lift2 (fun x y => Qred (x / y));
  float_mul := fun x y => Qred (x * y);
  float_div := fun x y => Qred (x / y);
  InferenceSession := open_artifact;
  get_inputs := fun _ => [{| name := "images"; shape := "[1, 3, 224, 224]" |}];
  get_outputs := fun _ => [{| name := "output0"; shape := "[1, 2]" |}];
  session_run := fun model _ _ => Ok [model];
  getenv := fun _ => None;
  path_exists := exists_;
  listdir := entries_of;
  makedirs := mkdir_p;
  str_exn := render;
  format_3f := fixed3;
  out_of_range_text :=
    fun _ => "Out of range float values are not JSON compliant"
|}.

(** A disk with the directories of [scripts/app.py] and no artifact. *)
Definition empty_store : fs :=
  {| dirs := <["corrections/front" := ∅]> (<["corrections/rear" := ∅]> ∅);
     artifacts := ∅ |}.

(** A disk holding, for both services, the artifact of a two-class
    model that emits the row [scores]. *)
Definition disk_with (scores : list float) : fs :=
  {| dirs := dirs empty_store;
     artifacts := <["app/model/classifier.onnx" := [scores]]>
                    (<["models/best.onnx" := [scores]]> ∅) |}.

Definition upload (fname contents : string) : UploadFile :=
  {| filename := fname; content_type := Some "image/jpeg";
     contents := contents |}.

(** Raw scores that are not probabilities, and scores of which one is
    not a number. *)
Definition logits : list float := [Finite 2; Finite (1 # 2)].

Definition nan_scores : list float := [Finite (1 # 2); NaN].

(** The state of [app/main.py] once started on that disk. *)
Definition main_state (scores : list float) : @Main.state platform :=
  match @Main.startup platform (disk_with scores) with
  | Main.Serving st => st
  | Main.StartupFailed _ st => st
  end.

Definition served : @Main.state platform :=
  Eval vm_compute in main_state logits.

Definition served_nan : @Main.state platform :=
  Eval vm_compute in main_state nan_scores.

(** The state of [scripts/app.py] once started on disk [d]. *)
Definition scripts_state (d : fs) : @Scripts.state platform :=
  snd (@Scripts.boot platform d).

(** Eleven uploads, and three of which the second does not decode. *)
Definition eleven : list UploadFile := repeat (upload "car.jpg" "pixels") 11.

Definition three : list UploadFile :=
  [upload "a.jpg" "pixels"; upload "b.jpg" ""; upload "c.jpg" "pixels"].

Definition correct (cls : string) (k : nat) (st : @Scripts.state platform)
  : result response * @Scripts.state platform :=
  @Scripts.correct_prediction platform ("20251014_1030" ++ pretty k)
    (upload "car.jpg" "pixels") "front" cls st.

(** The state after [n] corrections to class [cls], submitted one after
    the other at the seconds [k], [k + 1], ... *)
Fixpoint after (cls : string) (k n : nat) (st : @Scripts.state platform)
  : @Scripts.state platform :=
  match n with
  | O => st
  | S n' => after cls (S k) n' (snd (correct cls k st))
  end.

Definition answer (r : result response) : response :=
  match r with
  | Ok resp => resp
  | Raise _ => JSONResponse 0 (JDict [])
  end.

(** The signals of the responses to these corrections. *)
Fixpoint signals (cls : string) (k n : nat) (st : @Scripts.state platform)
  : list (option bool) :=
  match n with
  | O => []
  | S n' =>
      match correct cls k st with
      | (Ok r, st') => Scripts.signal r :: signals cls (S k) n' st'
      | (Raise _, st') => None :: signals cls (S k) n' st'
      end
  end.

(** Uploads that the handlers accept, refuse or fail on. *)
Definition car : UploadFile := upload "car.jpg" "pixels".

Definition text_upload : UploadFile :=
  {| filename := "notes.txt"; content_type := Some "text/plain";
     contents := "text" |}.

Definition untyped_upload : UploadFile :=
  {| filename := "car.jpg"; content_type := None; contents := "pixels" |}.

Definition broken_upload : UploadFile := upload "car.jpg" "".

(** A disk without any directory. *)
Definition bare : fs := {| dirs := ∅; artifacts := ∅ |}.

(** [scripts/app.py] started with the artifact of a model of two
    outputs, of three outputs and of one output. *)
Definition loaded : @Scripts.state platform :=
  Eval vm_compute in scripts_state (disk_with logits).

Definition three_outputs : @Scripts.state platform :=
  Eval vm_compute in scripts_state (disk_with [Finite 0; Finite 0; Finite 1]).

Definition one_output : @Scripts.state platform :=
  Eval vm_compute in scripts_state (disk_with [Finite 1]).

Definition no_output : @Scripts.state platform :=
  Eval vm_compute in scripts_state (disk_with []).

(** A service without artifact, and the same after 49 corrections. *)
Definition degraded : @Scripts.state platform :=
  Eval vm_compute in scripts_state empty_store.

Definition forty_nine : @Scripts.state platform :=
  Eval vm_compute in after "rear" 10 49 degraded.
End Sample.

(** * Properties *)

Ltac monad_unfold :=
  unfold bind, lift, ret, raise, try_except, gets, modify in *.

#[local] Arguments path_join : simpl never.
#[local] Arguments dirname : simpl never.

Lemma inference_calls_app l1 l2 :
  inference_calls (l1 ++ l2) = inference_calls l1 + inference_calls l2.
Proof.
  induction l1 as [|e l1 IH]; simpl; [reflexivity |].
  destruct e; simpl; rewrite IH; reflexivity.
Qed.

(** ** Arg-max and maximum *)

Lemma float_le_not_nan x y :
  float_le x y = true -> is_nan x = false /\ is_nan y = false.
Proof. destruct x, y; simpl; try discriminate; auto. Qed.

Lemma float_le_refl x : is_nan x = false -> float_le x x = true.
Proof.
  destruct x; simpl; try discriminate; auto.
  intros _. apply Qle_bool_iff, Qle_refl.
Qed.

Lemma float_le_trans x y z :
  float_le x y = true -> float_le y z = true -> float_le x z = true.
Proof.
  destruct x, y, z; simpl; try discriminate; auto.
  rewrite !Qle_bool_iff. apply Qle_trans.
Qed.

(** Two values that are not NaN compare one way or the other. *)
Lemma float_le_total x y :
  is_nan x = false -> is_nan y = false -> float_le x y = false ->
  float_lt y x = true.
Proof.
  unfold float_lt.
  destruct x, y; simpl; try discriminate; auto.
  intros _ _ Hxy. rewrite Hxy.
  rewrite andb_true_r. apply Qle_bool_iff, Qlt_le_weak, Qnot_le_lt.
  intros Hc. apply Qle_bool_iff in Hc. congruence.
Qed.

Lemma float_le_lt_trans x y z :
  float_le x y = true -> float_lt y z = true -> float_lt x z = true.
Proof.
  unfold float_lt. intros Hxy Hyz. apply andb_prop in Hyz as [Hyz Hzy].
  apply andb_true_intro. split; [eapply float_le_trans; eassumption |].
  apply negb_true_iff. apply negb_true_iff in Hzy.
  destruct (float_le z x) eqn:Hzx; [| reflexivity].
  rewrite <- Hzy. symmetry. eapply float_le_trans; eassumption.
Qed.

Lemma argmax_from_nan besti best i l :
  is_nan best = true ->
  argmax_from besti best i l = besti /\ max_from best l = best.
Proof. intros Hnan. destruct l; simpl; rewrite ?Hnan; auto. Qed.

Lemma argmax_from_spec (l : list float) : forall (p : list float) besti best,
  maximum_at p besti best ->
  maximum_at (p ++ l) (argmax_from besti best (length p) l) (max_from best l).
Proof.
  induction l as [|x l IH]; intros p besti best Hmax; simpl.
  - rewrite app_nil_r. exact Hmax.
  - destruct (is_nan best) eqn:Hnan.
    + destruct Hmax as [Hbest Hfirst]. rewrite Hnan in Hfirst.
      split; [apply lookup_app_l_Some, Hbest |]. rewrite Hnan.
      intros j y Hj Hy. apply (Hfirst j y Hj).
      rewrite lookup_app_l in Hy; [exact Hy |].
      apply lookup_lt_Some in Hbest. lia.
    + replace (p ++ x :: l)%list with ((p ++ [x]) ++ l)%list
        by (rewrite <- app_assoc; reflexivity).
      replace (S (length p)) with (length (p ++ [x])%list)
        by (rewrite length_app; simpl; lia).
      destruct Hmax as [Hbest Horder]. rewrite Hnan in Horder.
      destruct Horder as [Hle Hlt].
      destruct (float_le x best) eqn:Hx.
      * apply IH. split; [apply lookup_app_l_Some, Hbest |]. rewrite Hnan.
        split.
        -- apply Forall_app. split; [exact Hle | repeat constructor; exact Hx].
        -- intros j y Hj Hy. apply (Hlt j y Hj).
           rewrite lookup_app_l in Hy; [exact Hy |].
           apply lookup_lt_Some in Hbest. lia.
      * apply IH. split.
        { rewrite lookup_app_r by lia.
          replace (length p - length p) with 0 by lia. reflexivity. }
        assert (Hp : forall y, y ∈ p -> is_nan y = false).
        { intros y Hy. rewrite Forall_forall in Hle.
          apply (float_le_not_nan y best). apply Hle. exact Hy. }
        destruct (is_nan x) eqn:Hxnan.
        -- intros j y Hj Hy. rewrite lookup_app_l in Hy by exact Hj.
           apply Hp. eapply list_elem_of_lookup_2, Hy.
        -- assert (Hbx : float_lt best x = true)
             by (apply float_le_total; assumption).
           split.
           ++ apply Forall_app. split.
              ** eapply Forall_impl; [exact Hle |]. simpl. intros y Hy.
                 pose proof (float_le_lt_trans y best x Hy Hbx) as Hyx.
                 unfold float_lt in Hyx. apply andb_prop in Hyx. tauto.
              ** repeat constructor. apply float_le_refl, Hxnan.
           ++ intros j y Hj Hy. rewrite lookup_app_l in Hy by exact Hj.
              apply (float_le_lt_trans y best x); [| exact Hbx].
              rewrite Forall_forall in Hle. apply Hle.
              eapply list_elem_of_lookup_2, Hy.
Qed.

(** [np.argmax] returns the position of the maximum that [np.max]
    returns. *)
Lemma np_argmax_max (v : list float) :
  v <> [] ->
  exists i x, np_argmax v = Ok i /\ np_max v = Ok x /\ maximum_at v i x.
Proof.
  destruct v as [|x l]; [congruence | intros _].
  exists (argmax_from 0 x 1 l), (max_from x l).
  split; [reflexivity | split; [reflexivity |]].
  apply (argmax_from_spec l [x] 0 x).
  split; [reflexivity |]. destruct (is_nan x) eqn:Hnan.
  - intros j y Hj. lia.
  - split; [repeat constructor; apply float_le_refl, Hnan |].
    intros j y Hj. lia.
Qed.

(** ** Rounding *)

Lemma round_half_even_range (q : Q) (n : Z) :
  (0 <= q)%Q -> (q <= inject_Z n)%Q ->
  (0 <= round_half_even q <= n)%Z.
Proof.
  destruct q as [a b]. unfold Qle, round_half_even, inject_Z. simpl.
  intros Ha Hb.
  assert (Hd : (0 < Z.pos b)%Z) by lia.
  pose proof (Z.div_mod a (Z.pos b) ltac:(lia)) as Hdm.
  pose proof (Z.mod_pos_bound a (Z.pos b) Hd) as Hm.
  assert (Hfl0 : (0 <= a / Z.pos b)%Z) by (apply Z.div_pos; lia).
  assert (Hfln : (a / Z.pos b <= n)%Z).
  { apply Z.div_le_upper_bound; lia. }
  assert (Hstrict : (0 < a mod Z.pos b -> a / Z.pos b + 1 <= n)%Z) by nia.
  repeat match goal with
         | |- context [(?x <? ?y)%Z] => destruct (Z.ltb_spec x y)
         | |- context [Z.even ?x] => destruct (Z.even x)
         end; lia.
Qed.

Lemma py_round_unit (q : Q) (ndigits : nat) :
  (0 <= q <= 1)%Q -> (0 <= py_round q ndigits <= 1)%Q.
Proof.
  intros [H0 H1]. unfold py_round.
  set (p := (10 ^ Z.of_nat ndigits)%Z).
  assert (Hp : (0 < p)%Z) by (apply Z.pow_pos_nonneg; lia).
  destruct (round_half_even_range (q * inject_Z p) p) as [Hr0 Hr1].
  - apply Qmult_le_0_compat; [assumption |].
    unfold Qle, inject_Z; simpl; lia.
  - destruct q as [a b]. unfold Qle, Qmult, inject_Z in *. simpl in *.
    rewrite Pos2Z.inj_mul. nia.
  - unfold Qle. simpl. rewrite Z2Pos.id by assumption. lia.
Qed.

(** ** [app/main.py] *)

Section MainFacts.
Context `{Platform}.
Import Main.

Lemma startup_loads d st :
  startup d = Serving st -> exists sess, session st = Some sess.
Proof.
  unfold startup, load_model, logger_info, logger_error, set_session, emit, initial.
  monad_unfold. simpl.
  destruct (path_exists MODEL_PATH d); simpl; [| discriminate].
  destruct (InferenceSession MODEL_PATH d) as [sess|e]; simpl; [| discriminate].
  destruct (index0 (get_inputs sess)); simpl; [| discriminate].
  destruct (index0 (get_outputs sess)); simpl; [| discriminate].
  intros [= <-]. simpl. eauto.
Qed.

Lemma startup_missing d :
  path_exists MODEL_PATH d = false ->
  let e := PyException "FileNotFoundError"
             ("Model file not found at " ++ MODEL_PATH) in
  startup d
  = StartupFailed e
      {| session := None; disk := d;
         events := [Log "ERROR" ("Failed to load model: " ++ str_exn e)] |}.
Proof.
  intros Hmiss. unfold startup, load_model, logger_error, emit, initial.
  monad_unfold. simpl. rewrite Hmiss. reflexivity.
Qed.

Lemma startup_malformed d e :
  path_exists MODEL_PATH d = true ->
  InferenceSession MODEL_PATH d = Raise e ->
  startup d
  = StartupFailed e
      {| session := None; disk := d;
         events := [Log "INFO" ("Loading ONNX model from " ++ MODEL_PATH);
                    Log "ERROR" ("Failed to load model: " ++ str_exn e)] |}.
Proof.
  intros Hex Hbad.
  unfold startup, load_model, logger_info, logger_error, emit, initial.
  monad_unfold. simpl. rewrite Hex. simpl. rewrite Hbad. reflexivity.
Qed.

(** C4, on [app/main.py].  When the artifact is missing or cannot be
    opened, [load_model] logs the failure and raises it again: the
    exception escapes the startup handler, the application does not
    start, and no request is ever answered with the error of an unloaded
    model.  The claim asks for a process that keeps running, which is
    what [scripts/app.py] does ([load_model_total],
    [predict_image_unloaded]). *)
Theorem startup_aborts_on_load_failure d :
  path_exists MODEL_PATH d = false
  \/ (exists e, InferenceSession MODEL_PATH d = Raise e) ->
  exists e st,
    startup d = StartupFailed e st
    /\ session st = None
    /\ In (Log "ERROR" ("Failed to load model: " ++ str_exn e)) (events st).
Proof.
  intros Hfail.
  destruct (path_exists MODEL_PATH d) eqn:Hex.
  - rename Hex into Hex0. destruct Hfail as [Hmiss | [e Hbad]]; [discriminate |].
    exists e. eexists. split; [exact (startup_malformed d e Hex0 Hbad) |].
    split; [reflexivity |]. simpl. auto.
  - do 2 eexists. split; [exact (startup_missing d Hex) |].
    split; [reflexivity |]. simpl. auto.
Qed.

(** The handlers leave the session as it is. *)
Lemma keeps_ret {A} (a : A) : keeps_session (ret a).
Proof. intros st r st' [= _ <-]. reflexivity. Qed.

Lemma keeps_raise {A} (e : exn) : keeps_session (raise (A := A) e).
Proof. intros st r st' [= _ <-]. reflexivity. Qed.

Lemma keeps_lift {A} (x : result A) : keeps_session (lift x).
Proof. intros st r st' [= _ <-]. reflexivity. Qed.

Lemma keeps_gets {A} (f : state -> A) : keeps_session (gets f).
Proof. intros st r st' [= _ <-]. reflexivity. Qed.

Lemma keeps_emit (e : event) : keeps_session (emit e).
Proof. intros st r st' [= _ <-]. reflexivity. Qed.

Lemma keeps_bind {A B} (c : Comp state A) (k : A -> Comp state B) :
  keeps_session c -> (forall a, keeps_session (k a)) ->
  keeps_session (bind c k).
Proof.
  intros Hc Hk st r st'. unfold bind.
  destruct (c st) as [[a|e] st1] eqn:Hrun.
  - intros Hrun'. rewrite (Hk a st1 r st' Hrun'). exact (Hc _ _ _ Hrun).
  - intros [= _ <-]. exact (Hc _ _ _ Hrun).
Qed.

Lemma keeps_try_except {A} (c : Comp state A) (h : exn -> Comp state A) :
  keeps_session c -> (forall e, keeps_session (h e)) ->
  keeps_session (try_except c h).
Proof.
  intros Hc Hh st r st'. unfold try_except.
  destruct (c st) as [[a|e] st1] eqn:Hrun.
  - intros [= _ <-]. exact (Hc _ _ _ Hrun).
  - intros Hrun'. rewrite (Hh e st1 r st' Hrun'). exact (Hc _ _ _ Hrun).
Qed.

Ltac keeps :=
  repeat first
    [ apply keeps_ret | apply keeps_raise | apply keeps_lift
    | apply keeps_gets | apply keeps_emit
    | apply keeps_bind; [| intros ?]
    | apply keeps_try_except; [| intros ?]
    | match goal with
      | |- keeps_session (match ?x with _ => _ end) => destruct x
      end ].

Lemma predict_session file st r st' :
  predict file st = (r, st') -> session st' = session st.
Proof.
  revert st r st'. change (keeps_session (predict file)).
  unfold predict, logger_info, logger_error, read, run. keeps.
Qed.

Lemma batch_loop_session sess files :
  forall results, keeps_session (batch_loop sess files results).
Proof.
  induction files as [|file files IH]; intros results; simpl.
  - apply keeps_ret.
  - apply keeps_bind; [| intros r; apply IH].
    unfold batch_try, batch_except, read, run. keeps.
Qed.

Lemma batch_predict_session files st r st' :
  batch_predict files st = (r, st') -> session st' = session st.
Proof.
  revert st r st'. change (keeps_session (batch_predict files)).
  unfold batch_predict.
  apply keeps_bind; [apply keeps_gets | intros [sess|]; [| apply keeps_raise]].
  destruct (10 <? length files)%nat; [apply keeps_raise |].
  apply keeps_bind; [apply batch_loop_session | intros results; apply keeps_lift].
Qed.

(** In every serving state the model is loaded: the 503 guard of the
    handlers never fires. *)
Lemma serving_loaded st : serving st -> exists sess, session st = Some sess.
Proof.
  induction 1 as [d st Hstart | st file r st' _ IH Hrun
                 | st files r st' _ IH Hrun].
  - exact (startup_loads d st Hstart).
  - rewrite (predict_session file st r st' Hrun). exact IH.
  - rewrite (batch_predict_session files st r st' Hrun). exact IH.
Qed.

(** C2.  A batch of more than ten files is rejected as a whole with the
    error of the size check (HTTP 400) before any item is touched: the
    state, and with it the list of events, is what it was, so no upload
    is read and no inference call is made.  Requests are handled once
    [startup] has succeeded. *)
Theorem batch_too_large st files :
  serving st -> 10 < length files ->
  batch_predict files st
  = (Raise (HTTPException 400 "Maximum 10 images allowed per batch"), st)
  /\ inference_calls (events (snd (batch_predict files st)))
     = inference_calls (events st).
Proof.
  intros Hserving Hlen. destruct (serving_loaded st Hserving) as (sess & Hsess).
  assert (Hrun : batch_predict files st
                 = (Raise (HTTPException 400
                             "Maximum 10 images allowed per batch"), st)).
  { unfold batch_predict, bind, gets. rewrite Hsess.
    destruct (Nat.ltb_spec 10 (length files)) as [_|Hle]; [reflexivity | lia]. }
  rewrite Hrun. split; reflexivity.
Qed.

(** ** The batch loop *)

(** One iteration of the loop never raises: it appends the outcome that
    the specification gives the file, and leaves the trace of one
    item. *)
Lemma batch_item_run sess file st :
  exists r evs,
    try_except (batch_try sess file) (batch_except file) st
    = (Ok r, {| session := session st; disk := disk st;
                events := events st ++ evs |})
    /\ specified_outcome sess file r
    /\ item_trace file evs.
Proof.
  unfold batch_try, batch_except, read, run, emit, specified_outcome,
    item_trace, decoded, inferred.
  monad_unfold. simpl.
  destruct (image_open (contents file)) as [image0|e]; simpl;
    [| do 2 eexists; split; [reflexivity | simpl; repeat split; lia]].
  destruct (image_convert "RGB" image0) as [image|e]; simpl;
    [| do 2 eexists; split; [reflexivity | simpl; repeat split; lia]].
  destruct (get_inputs sess) as [|input inputs]; simpl;
    [do 2 eexists; split; [reflexivity | simpl; repeat split; lia] |].
  destruct (get_outputs sess) as [|output outputs]; simpl;
    [do 2 eexists; split; [reflexivity | simpl; repeat split; lia] |].
  rewrite <- ?app_assoc.
  destruct (session_run _ _ _) as [[|scores rest]|e]; simpl;
    [do 2 eexists; split; [reflexivity | simpl; repeat split; lia] |
    | do 2 eexists; split; [reflexivity | simpl; repeat split; lia]].
  destruct (postprocess_output scores) as [[class_index confidence]|e]; simpl;
    do 2 eexists; (split; [reflexivity | simpl; repeat split; lia]).
Qed.

Lemma batch_loop_run sess files : forall results st,
  exists rs blocks,
    batch_loop sess files results st
    = (Ok (results ++ rs)%list,
       {| session := session st; disk := disk st;
          events := events st ++ concat blocks |})
    /\ Forall2 (specified_outcome sess) files rs
    /\ Forall2 item_trace files blocks.
Proof.
  induction files as [|file files IH]; intros results st; simpl.
  - exists [], []. simpl. rewrite !app_nil_r. destruct st; simpl.
    repeat split; constructor.
  - destruct (batch_item_run sess file st) as (r & evs & Hitem & Hout & Htrace).
    unfold bind at 1. rewrite Hitem.
    destruct (IH (results ++ [r])%list
                {| session := session st; disk := disk st;
                   events := events st ++ evs |})
      as (rs & blocks & Hloop & Hall & Htraces).
    rewrite Hloop. simpl.
    exists (r :: rs), (evs :: blocks).
    rewrite <- !app_assoc. simpl. repeat split; constructor; assumption.
Qed.

(** An accepted batch processes every file, then renders the response. *)
Lemma batch_predict_accepted sess st files :
  session st = Some sess -> length files <= 10 ->
  exists results blocks,
    batch_predict files st
    = (json_response 200
         (JDict [("success", JBool true);
                 ("total_images", JInt (Z.of_nat (length files)));
                 ("results", JList results)]),
       {| session := session st; disk := disk st;
          events := events st ++ concat blocks |})
    /\ Forall2 (specified_outcome sess) files results
    /\ Forall2 item_trace files blocks.
Proof.
  intros Hsess Hlen. unfold batch_predict, bind at 1, gets. rewrite Hsess.
  destruct (Nat.ltb_spec 10 (length files)) as [Hgt|_]; [lia |].
  destruct (batch_loop_run sess files [] st)
    as (rs & blocks & Hloop & Hall & Htraces).
  unfold bind. rewrite Hloop. simpl. exists rs, blocks.
  split; [rewrite Hsess; reflexivity | split; assumption].
Qed.

Lemma specified_outcome_filename sess file r :
  specified_outcome sess file r ->
  field "filename" r = Some (JStr (filename file)).
Proof.
  unfold specified_outcome.
  destruct (decoded file) as [image|e]; [| intros ->; reflexivity].
  destruct (inferred sess image) as [scores|e]; [| intros ->; reflexivity].
  destruct (postprocess_output scores) as [[class_index confidence]|e];
    intros ->; reflexivity.
Qed.

(** The encoder refuses no float of the outcome of a file exactly when
    the confidence of the file, if it has one, is finite; the float it
    refuses is that confidence. *)
Lemma specified_outcome_refused sess file r :
  specified_outcome sess file r ->
  (refused r = None <-> finite_confidence sess file)
  /\ forall x, refused r = Some x -> is_finite x = false.
Proof.
  unfold specified_outcome, finite_confidence.
  destruct (decoded file) as [image|e].
  2: { intros ->. split; [| discriminate].
       split; [intros _ ? ? ? ? [=] | intros _; reflexivity]. }
  destruct (inferred sess image) as [scores|e] eqn:Hinf.
  2: { intros ->. split; [| discriminate].
       split; [| intros _; reflexivity].
       intros _ ? ? ? ? [= <-] Hinf'. congruence. }
  destruct (postprocess_output scores) as [[class_index confidence]|e]
    eqn:Hpost.
  2: { intros ->. split; [| discriminate].
       split; [| intros _; reflexivity].
       intros _ ? ? ? ? [= <-] Hinf' Hpost'. congruence. }
  intros ->. simpl. split; [split |].
  - intros Hfin ? ? ? c [= <-] Hinf' Hpost'.
    assert (c = confidence) as -> by congruence.
    destruct confidence; simpl in *; congruence.
  - intros Hfin. specialize (Hfin image scores class_index confidence
                               eq_refl Hinf Hpost).
    destruct confidence; simpl in *; congruence.
  - intros x. destruct confidence; simpl; intros [= <-]; reflexivity.
Qed.

Lemma outcomes_refused sess files results :
  Forall2 (specified_outcome sess) files results ->
  (first_some (map refused results) = None
   <-> Forall (finite_confidence sess) files)
  /\ forall x, first_some (map refused results) = Some x ->
               is_finite x = false.
Proof.
  induction 1 as [|file r files results Hout _ [IH IHx]]; simpl.
  - split; [split; [constructor | reflexivity] | discriminate].
  - destruct (specified_outcome_refused sess file r Hout) as [Hr Hx].
    rewrite Forall_cons. destruct (refused r) as [x|].
    + split; [| intros y [= <-]; apply Hx; reflexivity].
      split; [discriminate |]. intros [Hfin _].
      apply Hr in Hfin. discriminate.
    + split; [| exact IHx].
      rewrite IH. split; [| intros [_ Hall]; exact Hall].
      intros Hall. split; [apply Hr; reflexivity | exact Hall].
Qed.

(** C3, as amended.  For a batch of at most ten files of which every
    classified one has a finite confidence, [batch_predict] answers with
    one outcome per file, in the order of the files.  The outcome at
    position [i] carries the filename of file [i] and is the one that
    [specified_outcome] gives that file alone: [success: false] with the
    text of the exception when its decoding or its inference raises,
    [success: true] with the prediction otherwise.  A failing item thus
    leaves the outcomes of the other items as they are. *)
Theorem batch_outcomes st files :
  serving st -> length files <= 10 ->
  (forall sess, session st = Some sess ->
                Forall (finite_confidence sess) files) ->
  exists sess results st',
    session st = Some sess
    /\ batch_predict files st
       = (Ok (JSONResponse 200
                (JDict [("success", JBool true);
                        ("total_images", JInt (Z.of_nat (length files)));
                        ("results", JList results)])), st')
    /\ length results = length files
    /\ forall i file, files !! i = Some file ->
         exists r, results !! i = Some r
                   /\ field "filename" r = Some (JStr (filename file))
                   /\ specified_outcome sess file r.
Proof.
  intros Hserving Hlen Hfinite.
  destruct (serving_loaded st Hserving) as (sess & Hsess).
  destruct (batch_predict_accepted sess st files Hsess Hlen)
    as (results & blocks & Hrun & Hall & _).
  specialize (Hfinite sess Hsess).
  apply (outcomes_refused sess files results Hall) in Hfinite.
  exists sess, results. eexists.
  split; [exact Hsess | split; [| split]].
  - rewrite Hrun. unfold json_response. simpl. rewrite Hfinite. reflexivity.
  - symmetry. eapply Forall2_length, Hall.
  - intros i file Hi.
    destruct (Forall2_lookup_l _ _ _ _ _ Hall Hi) as (r & Hr & Hout).
    exists r. repeat split; try assumption.
    eapply specified_outcome_filename, Hout.
Qed.

(** C10, as amended.  For an accepted batch (the model is loaded and
    there are at most ten files) of which every classified file has a
    finite confidence, the response is a 200 whose body has
    [success: true] and [total_images] equal to the number of files,
    whatever the outcomes of the items are: a file that fails has no
    confidence, so that this holds when every item fails. *)
Theorem batch_success_flag st files :
  serving st -> length files <= 10 ->
  (forall sess, session st = Some sess ->
                Forall (finite_confidence sess) files) ->
  exists resp st',
    batch_predict files st = (Ok resp, st')
    /\ status_code resp = 200%Z
    /\ field "success" (content resp) = Some (JBool true)
    /\ field "total_images" (content resp)
       = Some (JInt (Z.of_nat (length files))).
Proof.
  intros Hserving Hlen Hfinite.
  destruct (serving_loaded st Hserving) as (sess & Hsess).
  destruct (batch_predict_accepted sess st files Hsess Hlen)
    as (results & blocks & Hrun & Hall & _).
  specialize (Hfinite sess Hsess).
  apply (outcomes_refused sess files results Hall) in Hfinite.
  do 2 eexists. split.
  - rewrite Hrun. unfold json_response. simpl. rewrite Hfinite. reflexivity.
  - repeat split.
Qed.

Lemma get_class_name_spec (i : nat) :
  get_class_name (Z.of_nat i)
  = match classes !! i with Some c => c | None => "unknown" end.
Proof.
  unfold get_class_name, classes.
  destruct i as [|[|i]]; [reflexivity | reflexivity |].
  simpl length. destruct (Z.ltb_spec (Z.of_nat (S (S i))) (Z.of_nat 2));
    [lia |]. rewrite andb_false_r. reflexivity.
Qed.

Lemma get_class_name_negative (z : Z) :
  (z < 0)%Z -> get_class_name z = "unknown".
Proof.
  intros Hz. unfold get_class_name.
  destruct (Z.leb_spec 0 z); [lia | reflexivity].
Qed.

End MainFacts.

(** ** [scripts/app.py] *)

Section ScriptsFacts.
Context `{Platform}.
Import Scripts.

(** *** Model runtime *)

Lemma load_model_missing st :
  path_exists model_path (disk st) = false ->
  load_model st
  = (Ok false,
     {| ort_session := ort_session st; disk := disk st;
        events := events st ++ [Print ("⚠ Model not found at " ++ model_path)] |}).
Proof.
  intros Hmiss. unfold load_model, print, emit. monad_unfold.
  rewrite Hmiss. reflexivity.
Qed.

Lemma load_model_malformed st e :
  path_exists model_path (disk st) = true ->
  InferenceSession model_path (disk st) = Raise e ->
  load_model st
  = (Ok false,
     {| ort_session := ort_session st; disk := disk st;
        events := events st
                  ++ [Print ("❌ Error loading model: " ++ str_exn e);
                      PrintExc e] |}).
Proof.
  intros Hex Hbad. unfold load_model, print, emit. monad_unfold.
  rewrite Hex. simpl. rewrite Hbad. simpl.
  rewrite <- app_assoc. reflexivity.
Qed.

(** [load_model] never raises; when it answers [False] the session is
    what it was. *)
Lemma load_model_total st :
  exists ok st',
    load_model st = (Ok ok, st')
    /\ disk st' = disk st
    /\ (ok = false -> ort_session st' = ort_session st)
    /\ (ok = true -> exists sess, ort_session st' = Some sess).
Proof.
  unfold load_model, print, set_session, emit. monad_unfold.
  destruct (path_exists model_path (disk st)); simpl.
  - destruct (InferenceSession model_path (disk st)) as [sess|e]; simpl.
    + do 2 eexists. split; [reflexivity |]. simpl.
      repeat split; try discriminate; eauto.
    + do 2 eexists. split; [reflexivity |]. simpl.
      repeat split; try discriminate; eauto.
  - do 2 eexists. split; [reflexivity |]. simpl.
    repeat split; try discriminate; eauto.
Qed.

Lemma startup_event_total st :
  exists st',
    startup_event st = (Ok tt, st') /\ disk st' = disk st
    /\ (ort_session st' = None -> ort_session st = None).
Proof.
  unfold startup_event, print, emit, bind, modify. simpl.
  match goal with
  | |- context [load_model ?s] =>
      destruct (load_model_total s) as (ok & st1 & Hload & Hdisk & Hf & Ht);
      rewrite Hload
  end.
  simpl in *. destruct ok; eexists; (split; [reflexivity |]); simpl;
    (split; [assumption |]).
  - destruct Ht as [sess Hsess]; [reflexivity |]. rewrite Hsess. discriminate.
  - rewrite Hf by reflexivity. auto.
Qed.

(** Without a session, an inference call fails at once, before any
    decoding or engine call. *)
Lemma predict_image_unloaded image st :
  ort_session st = None ->
  predict_image image st = (Raise (HTTPException 500 "Model not loaded"), st).
Proof.
  intros Hnone. unfold predict_image, bind, gets. rewrite Hnone. reflexivity.
Qed.

Lemma predict_unloaded now file ct image0 image st :
  ort_session st = None ->
  content_type file = Some ct -> String.prefix "image/" ct = true ->
  image_open (contents file) = Ok image0 ->
  image_convert "RGB" image0 = Ok image ->
  predict now file st
  = (Raise (HTTPException 500 "Model not loaded"),
     {| ort_session := None; disk := disk st;
        events := events st ++ [ReadUpload (filename file)] |}).
Proof.
  intros Hnone Hct Himg Hopen Hconv.
  unfold predict, read, emit, startswith. monad_unfold.
  rewrite Hct, Himg. simpl. rewrite Hopen. simpl. rewrite Hconv. simpl.
  unfold predict_image, bind, gets. simpl. rewrite Hnone. reflexivity.
Qed.

(** X21.  The class list is indexed with the raw arg-max position: a model
    with more outputs than class names makes an inference call raise,
    where [get_class_name] of [app/utils.py] answers ["unknown"]. *)
Lemma predict_image_index_error image st sess tensor input inputs
      logits rows rest m i :
  ort_session st = Some sess ->
  preprocess_image image = Ok tensor ->
  get_inputs sess = input :: inputs ->
  session_run sess None (name input, tensor) = Ok ((logits :: rows) :: rest) ->
  np_max logits = Ok m ->
  np_argmax (map (fun x => np_div x (np_sum (map (fun x => np_exp (np_sub x m))
                                               logits)))
               (map (fun x => np_exp (np_sub x m)) logits)) = Ok i ->
  length class_names <= i ->
  let e := PyException "IndexError" "list index out of range" in
  predict_image image st
  = (Raise (HTTPException 500 ("Prediction error: " ++ str_exn e)),
     {| ort_session := ort_session st; disk := disk st;
        events := events st
                  ++ [SessionRun;
                      Print ("❌ Prediction failed: " ++ str_exn e);
                      PrintExc e] |}).
Proof.
  intros Hsess Hpre Hin Hrun Hmax Hargmax Hout.
  unfold predict_image, bind at 1, gets. rewrite Hsess.
  unfold run, print, emit. monad_unfold. simpl.
  rewrite Hpre. simpl. rewrite Hin. simpl. rewrite Hrun. simpl.
  rewrite Hmax. simpl. rewrite Hargmax. simpl.
  unfold index. destruct (nth_error class_names i) as [c|] eqn:Hnth.
  - assert (Hlt : i < length class_names)
      by (apply nth_error_Some; congruence).
    lia.
  - simpl. rewrite <- !app_assoc. simpl. rewrite ?Hsess. reflexivity.
Qed.

(** *** Corrections *)

Lemma correct_prediction_invalid now file predicted_class correct_class st :
  existsb (String.eqb correct_class) class_names = false ->
  correct_prediction now file predicted_class correct_class st
  = (Ok (JSONResponse 500
           (JDict [("success", JBool false);
                   ("error", JStr (str_exn invalid_class));
                   ("message", JStr "Correction failed")])),
     {| ort_session := ort_session st; disk := disk st;
        events := events st ++ [Print ("❌ Correction error:" ++ nl);
                                PrintExc invalid_class] |}).
Proof.
  intros Hbad. unfold correct_prediction, print, emit. monad_unfold.
  rewrite Hbad. simpl. rewrite <- app_assoc. reflexivity.
Qed.

(** Every answer of [correct_prediction] is either the failure body,
    which reports no tally and no signal, or the success body, whose
    figures are those of the listings of the disk it leaves. *)
Lemma correct_prediction_cases now file predicted_class correct_class st :
  exists resp st',
    correct_prediction now file predicted_class correct_class st
    = (Ok resp, st')
    /\ ((status_code resp = 500%Z /\ tally resp = None /\ signal resp = None)
        \/ (exists front rear,
               enumerated "corrections/front" (disk st') = Ok front
               /\ enumerated "corrections/rear" (disk st') = Ok rear
               /\ status_code resp = 200%Z
               /\ tally resp = Some ((front + rear)%Z, front, rear)
               /\ signal resp = Some (retrain_threshold <=? front + rear)%Z
               /\ threshold resp = Some retrain_threshold)).
Proof.
  unfold correct_prediction, os_makedirs, save, os_listdir, set_disk,
    read, print, emit.
  monad_unfold.
  destruct (existsb (String.eqb correct_class) class_names); simpl;
    [| do 2 eexists; split; [reflexivity | left; repeat split]].
  destruct (image_open (contents file)) as [image0|e]; simpl;
    [| do 2 eexists; split; [reflexivity | left; repeat split]].
  destruct (image_convert "RGB" image0) as [image|e]; simpl;
    [| do 2 eexists; split; [reflexivity | left; repeat split]].
  destruct (makedirs _ (disk st)) as [d1|e]; simpl;
    [| do 2 eexists; split; [reflexivity | left; repeat split]].
  destruct (image_save _ image d1) as [d2|e]; simpl;
    [| do 2 eexists; split; [reflexivity | left; repeat split]].
  destruct (listdir "corrections/front" d2) as [front|e] eqn:Hfront; simpl;
    [| do 2 eexists; split; [reflexivity | left; repeat split]].
  destruct (listdir "corrections/rear" d2) as [rear|e] eqn:Hrear; simpl;
    [| do 2 eexists; split; [reflexivity | left; repeat split]].
  destruct (retrain_threshold <=? _)%Z eqn:Hsignal; simpl;
    (do 2 eexists; split; [reflexivity |]; right;
     exists (Z.of_nat (length front)), (Z.of_nat (length rear));
     unfold enumerated; simpl; rewrite Hfront, Hrear, Hsignal; repeat split).
Qed.

(** *** Statistics *)

Lemma count_entries_run path st :
  count_entries path st
  = (match enumerated_if_exists path (disk st) with
     | Ok n => Ok n
     | Raise e => Raise e
     end, st).
Proof.
  unfold count_entries, enumerated_if_exists, enumerated, os_listdir.
  monad_unfold. destruct (path_exists path (disk st)); [| reflexivity].
  destruct (listdir path (disk st)); reflexivity.
Qed.

(** The tally of the stats query is a function of the disk alone. *)
Lemma stats_tally_disk st :
  stats_tally st
  = match enumerated_if_exists "corrections/front" (disk st) with
    | Raise e => Raise e
    | Ok front =>
        match enumerated_if_exists "corrections/rear" (disk st) with
        | Raise e => Raise e
        | Ok rear => Ok (Some ((front + rear)%Z, front, rear))
        end
    end.
Proof.
  unfold stats_tally, get_stats. unfold bind at 1.
  rewrite count_entries_run.
  destruct (enumerated_if_exists "corrections/front" (disk st)) as [front|e];
    [| reflexivity].
  unfold bind at 1. rewrite count_entries_run.
  destruct (enumerated_if_exists "corrections/rear" (disk st)) as [rear|e];
    reflexivity.
Qed.


(** C1.  The retrain signal of a saved correction is the comparison of
    the total with the threshold: with [front] and [rear] the numbers of
    entries that the two correction directories list once the image is
    saved, the response reports the threshold 50 and the signal
    [50 <= front + rear]; so the signal is false when 49 corrections are
    persisted and true when there are 50. *)
Theorem retrain_signal_threshold
        now file predicted_class correct_class st resp st' :
  correct_prediction now file predicted_class correct_class st
  = (Ok resp, st') ->
  status_code resp = 200%Z ->
  exists front rear,
    enumerated "corrections/front" (disk st') = Ok front
    /\ enumerated "corrections/rear" (disk st') = Ok rear
    /\ threshold resp = Some 50%Z
    /\ signal resp = Some (50 <=? front + rear)%Z
    /\ ((front + rear = 49)%Z -> signal resp = Some false)
    /\ ((front + rear = 50)%Z -> signal resp = Some true).
Proof.
  intros Hrun Hok.
  destruct (correct_prediction_cases now file predicted_class correct_class st)
    as (resp0 & st0 & Hrun0 & Hcases).
  rewrite Hrun in Hrun0. injection Hrun0 as <- <-.
  destruct Hcases as [(Hko & _) | (front & rear & Hf & Hr & _ & _ & Hs & Ht)];
    [congruence |].
  exists front, rear. unfold retrain_threshold in *.
  split; [exact Hf | split; [exact Hr | split; [exact Ht | split; [exact Hs |]]]].
  split; intros Htotal; rewrite Hs, Htotal; reflexivity.
Qed.

(** C5, on the code.  A correction whose class is not a configured class
    name saves nothing: the disk is what it was and the upload is not
    even read.  The [HTTPException] 400 that the validation raises is
    caught by the [except Exception] clause of the handler, so that the
    answer is the generic failure body with status 500, not the error
    of an invalid class. *)
Theorem invalid_class_answer now file predicted_class correct_class st :
  ~ In correct_class class_names ->
  exists resp st',
    correct_prediction now file predicted_class correct_class st
    = (Ok resp, st')
    /\ status_code resp = 500%Z
    /\ content resp = JDict [("success", JBool false);
                             ("error", JStr (str_exn invalid_class));
                             ("message", JStr "Correction failed")]
    /\ disk st' = disk st
    /\ events st' = (events st ++ [Print ("❌ Correction error:" ++ nl);
                                   PrintExc invalid_class])%list.
Proof.
  intros Hbad.
  assert (Hex : existsb (String.eqb correct_class) class_names = false).
  { apply not_true_is_false. intros Hc. apply Hbad.
    apply existsb_exists in Hc. destruct Hc as (c & Hin & Heq).
    apply String.eqb_eq in Heq. subst c. exact Hin. }
  do 2 eexists. split; [apply correct_prediction_invalid; exact Hex |].
  repeat split.
Qed.

End ScriptsFacts.

Lemma uploads_read_app l1 l2 :
  uploads_read (l1 ++ l2) = (uploads_read l1 ++ uploads_read l2)%list.
Proof.
  induction l1 as [|e l1 IH]; simpl; [reflexivity |].
  destruct e; simpl; rewrite IH; reflexivity.
Qed.

(** ** More on [app/utils.py] and [app/main.py] *)

Section MainCoverage.
Context `{Platform}.
Import Main.

(** X1.  [get_class_name] answers for every integer: the two class
    names at 0 and 1, and ["unknown"] everywhere else; a negative index
    does not count from the end of the list. *)
Theorem get_class_name_cases (index : Z) :
  get_class_name index
  = if (index =? 0)%Z then "front_vehicle"
    else if (index =? 1)%Z then "rear_vehicle"
    else "unknown".
Proof.
  unfold get_class_name, classes. simpl length.
  destruct (Z.leb_spec 0 index) as [Hnn|Hneg]; simpl.
  - destruct (Z.ltb_spec index (Z.of_nat 2)) as [Hlt|Hge].
    + assert (Hcases : index = 0%Z \/ index = 1%Z) by lia.
      destruct Hcases as [-> | ->]; reflexivity.
    + destruct (Z.eqb_spec index 0); [lia |].
      destruct (Z.eqb_spec index 1); [lia |]. reflexivity.
  - destruct (Z.eqb_spec index 0); [lia |].
    destruct (Z.eqb_spec index 1); [lia |]. reflexivity.
Qed.

(** X2.  On a non-empty output [postprocess_output] returns the position
    and the value of the maximum as NumPy finds it.  When no score is a
    NaN, the confidence is the first maximal score: it is the score at
    the predicted index, no score exceeds it and every score before it
    is strictly below it (ties go to the lowest index).  When some score
    is a NaN, the confidence is a NaN and the predicted index is the
    position of the first NaN. *)
Theorem postprocess_output_first_maximum (output : ndarray) :
  concat output <> [] ->
  exists i confidence,
    postprocess_output output = Ok (Z.of_nat i, confidence)
    /\ concat output !! i = Some confidence
    /\ (Forall (fun y => is_nan y = false) (concat output) ->
        Forall (fun y => float_le y confidence = true) (concat output)
        /\ forall j y, j < i -> concat output !! j = Some y ->
                       float_lt y confidence = true)
    /\ (Exists (fun y => is_nan y = true) (concat output) ->
        is_nan confidence = true
        /\ forall j y, j < i -> concat output !! j = Some y ->
                       is_nan y = false).
Proof.
  intros Hne.
  destruct (np_argmax_max (concat output) Hne)
    as (i & x & Hargmax & Hmax & Hi & Horder).
  exists i, x. unfold postprocess_output. rewrite Hargmax, Hmax.
  split; [reflexivity | split; [exact Hi |]].
  destruct (is_nan x) eqn:Hnan.
  - split; [| intros _; split; [reflexivity | exact Horder]].
    intros Hnone. rewrite Forall_forall in Hnone.
    specialize (Hnone x (list_elem_of_lookup_2 _ _ _ Hi)). congruence.
  - split; [intros _; exact Horder |].
    intros Hsome. apply Exists_exists in Hsome as (y & Hy & Hynan).
    destruct Horder as [Hle _]. rewrite Forall_forall in Hle.
    destruct (float_le_not_nan y x (Hle y Hy)). congruence.
Qed.

(** X3.  [postprocess_output] fails exactly on an output without
    scores, with the [ValueError] of [np.argmax]. *)
Theorem postprocess_output_empty (output : ndarray) :
  concat output = []
  <-> postprocess_output output
      = Raise (PyException "ValueError"
                 "attempt to get argmax of an empty sequence").
Proof.
  unfold postprocess_output. split.
  - intros ->. reflexivity.
  - destruct (concat output) as [|x l]; [reflexivity |]. simpl. discriminate.
Qed.

(** X4.  While no model is loaded, the guard on the session answers
    before anything else: [predict] (whatever the content type),
    [batch_predict] (whatever the size of the batch) and [health_check]
    raise the 503 and leave the state as it is. *)
Theorem unloaded_guard_comes_first st file files :
  session st = None ->
  predict file st = (Raise (HTTPException 503 "Model not loaded"), st)
  /\ batch_predict files st
     = (Raise (HTTPException 503 "Model not loaded"), st)
  /\ health_check st = (Raise (HTTPException 503 "Model not loaded"), st).
Proof.
  intros Hnone. unfold predict, batch_predict, health_check, bind, gets.
  rewrite Hnone. repeat split.
Qed.

(** X5.  The content-type gate of [predict] of [app/main.py], with a
    model loaded: an upload whose content type does not start with
    [image/] is refused with a 400, and an upload without content type
    raises the [AttributeError] of [None.startswith], which escapes as
    it is because the check is outside the [try].  In both cases the
    upload is not read: the state is unchanged. *)
Theorem predict_content_type_gate st sess file :
  session st = Some sess ->
  match content_type file with
  | None =>
      predict file st
      = (Raise (PyException "AttributeError"
                  "'NoneType' object has no attribute 'startswith'"), st)
  | Some ct =>
      String.prefix "image/" ct = false ->
      predict file st
      = (Raise (HTTPException 400
                  "Invalid file type. Please upload an image file."), st)
  end.
Proof.
  intros Hsess. destruct (content_type file) as [ct|] eqn:Hct.
  - intros Hother. unfold predict, bind at 1, gets. rewrite Hsess.
    unfold bind, lift, startswith. rewrite Hct, Hother. reflexivity.
  - unfold predict, bind at 1, gets. rewrite Hsess.
    unfold bind, lift, startswith. rewrite Hct. reflexivity.
Qed.

(** The [try] of [predict] is the [try] of the batch loop between two
    log lines, followed by a third and by the rendering of the
    response. *)
Lemma predict_by_batch_try st sess file ct :
  session st = Some sess ->
  content_type file = Some ct ->
  String.prefix "image/" ct = true ->
  match batch_try sess file st with
  | (Ok j, st1) =>
      exists label class_index confidence,
        j = JDict [("filename", JStr (filename file));
                   ("success", JBool true);
                   ("prediction", prediction label class_index confidence)]
        /\ exists evs,
             inference_calls evs = 1
             /\ if is_finite confidence
                then predict file st
                     = (Ok (JSONResponse 200
                              (JDict [("success", JBool true);
                                      ("prediction",
                                       prediction label class_index
                                         confidence);
                                      ("filename", JStr (filename file))])),
                        {| session := session st; disk := disk st;
                           events := events st ++ evs |})
                else predict file st
                     = (Raise (HTTPException 500
                                 ("Prediction failed: "
                                  ++ str_exn (out_of_range confidence))),
                        {| session := session st; disk := disk st;
                           events := events st ++ evs |})
                     /\ In (Log "ERROR"
                              ("Prediction error: "
                               ++ str_exn (out_of_range confidence)))
                           evs
  | (Raise e, st1) =>
      exists evs,
        predict file st
        = (Raise (HTTPException 500 ("Prediction failed: " ++ str_exn e)),
           {| session := session st; disk := disk st;
              events := events st ++ evs |})
        /\ In (Log "ERROR" ("Prediction error: " ++ str_exn e)) evs
        /\ inference_calls evs <= 1
  end.
Proof.
  intros Hsess Hct Himg.
  remember (predict file st) as answer eqn:Hanswer.
  unfold predict, bind at 1, gets in Hanswer. rewrite Hsess in Hanswer.
  unfold bind at 1, lift, startswith in Hanswer.
  rewrite Hct, Himg in Hanswer. simpl negb in Hanswer. cbv iota in Hanswer.
  subst answer.
  unfold batch_try, logger_info, logger_error, read, run, emit.
  monad_unfold. simpl.
  destruct (image_open (contents file)) as [image0|e]; simpl;
    [| rewrite <- ?app_assoc; eexists; split; [reflexivity | simpl; split; [tauto | lia]]].
  destruct (image_convert "RGB" image0) as [image|e]; simpl;
    [| rewrite <- ?app_assoc; eexists; split; [reflexivity | simpl; split; [tauto | lia]]].
  destruct (index0 (get_inputs sess)) as [input|e]; simpl;
    [| rewrite <- ?app_assoc; eexists; split; [reflexivity | simpl; split; [tauto | lia]]].
  destruct (index0 (get_outputs sess)) as [output|e]; simpl;
    [| rewrite <- ?app_assoc; eexists; split; [reflexivity | simpl; split; [tauto | lia]]].
  destruct (session_run _ _ _) as [outputs|e]; simpl;
    [| rewrite <- ?app_assoc; eexists; split; [reflexivity | simpl; split; [tauto | lia]]].
  destruct (index0 outputs) as [output0|e]; simpl;
    [| rewrite <- ?app_assoc; eexists; split; [reflexivity | simpl; split; [tauto | lia]]].
  destruct (postprocess_output output0) as [[pred_index confidence]|e]; simpl;
    [| rewrite <- ?app_assoc; eexists; split; [reflexivity | simpl; split; [tauto | lia]]].
  do 3 eexists. split; [reflexivity |].
  unfold json_response.
  destruct confidence; simpl; rewrite <- ?app_assoc; eexists;
    (split; [| first [reflexivity | split; [reflexivity | simpl; tauto]]]);
    reflexivity.
Qed.

(** X6.  For an image upload and a loaded model, [predict] makes at most
    one inference call, only adds events, and either answers 200 with
    a prediction or raises an [HTTPException] 500 whose detail is
    [Prediction failed: ] followed by the text of the exception, which
    it has logged as an error. *)
Theorem predict_answers_200_or_500 st sess file ct :
  session st = Some sess ->
  content_type file = Some ct ->
  String.prefix "image/" ct = true ->
  exists evs,
    snd (predict file st)
    = {| session := session st; disk := disk st;
         events := events st ++ evs |}
    /\ inference_calls evs <= 1
    /\ ((exists p,
           fst (predict file st)
           = Ok (JSONResponse 200
                   (JDict [("success", JBool true);
                           ("prediction", p);
                           ("filename", JStr (filename file))])))
        \/ (exists e,
              fst (predict file st)
              = Raise (HTTPException 500
                         ("Prediction failed: " ++ str_exn e))
              /\ In (Log "ERROR" ("Prediction error: " ++ str_exn e)) evs)).
Proof.
  intros Hsess Hct Himg.
  pose proof (predict_by_batch_try st sess file ct Hsess Hct Himg) as Hrel.
  destruct (batch_try sess file st) as [[j|e] st1].
  - destruct Hrel as (label & class_index & confidence & _ & evs & Hcalls
                      & Hrun).
    exists evs. destruct (is_finite confidence).
    + rewrite Hrun. simpl.
      split; [reflexivity | split; [lia | left; eauto]].
    + destruct Hrun as [Hrun Hlog]. rewrite Hrun. simpl.
      split; [reflexivity | split; [lia | right; eauto]].
  - destruct Hrel as (evs & Hrun & Hlog & Hcalls).
    exists evs. rewrite Hrun. simpl.
    split; [reflexivity | split; [exact Hcalls | right; eauto]].
Qed.

(** X7.  [predict] and the loop of [batch_predict] decide alike up to
    the rendering of the response.  For an image upload, [predict]
    raises the 500 for the very exception that the batch item records;
    when the batch item records a prediction whose confidence is finite,
    [predict] answers 200 with that prediction; and when it records a
    prediction whose confidence is an infinity or a NaN, [predict]
    raises the 500 of a response that cannot be rendered, where the
    batch item says [success: true]. *)
Theorem predict_agrees_with_batch st sess file ct :
  session st = Some sess ->
  content_type file = Some ct ->
  String.prefix "image/" ct = true ->
  match fst (batch_try sess file st) with
  | Ok j =>
      exists label class_index confidence,
        j = JDict [("filename", JStr (filename file));
                   ("success", JBool true);
                   ("prediction", prediction label class_index confidence)]
        /\ fst (predict file st)
           = if is_finite confidence
             then Ok (JSONResponse 200
                        (JDict [("success", JBool true);
                                ("prediction",
                                 prediction label class_index confidence);
                                ("filename", JStr (filename file))]))
             else Raise (HTTPException 500
                           ("Prediction failed: "
                            ++ str_exn (out_of_range confidence)))
  | Raise e =>
      fst (predict file st)
      = Raise (HTTPException 500 ("Prediction failed: " ++ str_exn e))
  end.
Proof.
  intros Hsess Hct Himg.
  pose proof (predict_by_batch_try st sess file ct Hsess Hct Himg) as Hrel.
  destruct (batch_try sess file st) as [[j|e] st1]; simpl.
  - destruct Hrel as (label & class_index & confidence & Hj & evs & _ & Hrun).
    exists label, class_index, confidence. split; [exact Hj |].
    destruct (is_finite confidence).
    + rewrite Hrun. reflexivity.
    + destruct Hrun as [Hrun _]. rewrite Hrun. reflexivity.
  - destruct Hrel as (evs & Hrun & _). rewrite Hrun. reflexivity.
Qed.

Lemma batch_try_content_type sess ct file st :
  batch_try sess (with_content_type ct file) st = batch_try sess file st.
Proof. reflexivity. Qed.

Lemma batch_loop_content_type sess ct files : forall results st,
  batch_loop sess (map (with_content_type ct) files) results st
  = batch_loop sess files results st.
Proof.
  induction files as [|file files IH]; intros results st; simpl;
    [reflexivity |].
  unfold bind, try_except. rewrite batch_try_content_type.
  destruct (batch_try sess file st) as [[j|e] st1]; simpl; apply IH.
Qed.

(** X8.  [batch_predict] never looks at the content type of the
    uploads: changing the content type of every file of a batch changes
    neither the response nor the final state. *)
Theorem batch_predict_ignores_content_type ct files st :
  batch_predict (map (with_content_type ct) files) st
  = batch_predict files st.
Proof.
  unfold batch_predict, bind at 1 3, gets.
  destruct (session st) as [sess|]; [| reflexivity].
  rewrite length_map.
  destruct (10 <? length files)%nat; [reflexivity |].
  unfold bind. rewrite batch_loop_content_type. reflexivity.
Qed.

Lemma traces_read (files : list UploadFile) (blocks : list (list event)) :
  Forall2 item_trace files blocks ->
  uploads_read (concat blocks) = map filename files.
Proof.
  induction 1 as [|file evs files blocks [Hread _] _ IH]; simpl;
    [reflexivity |].
  rewrite uploads_read_app, Hread, IH. reflexivity.
Qed.

(** X9.  An accepted batch reads every upload exactly once, in the
    order of the files, and makes at most one inference call per file:
    its events are those of the files one after the other, the events of
    a file being one read of that upload and at most one inference
    call. *)
Theorem batch_reads_each_upload_once st sess files :
  session st = Some sess -> length files <= 10 ->
  exists blocks,
    snd (batch_predict files st)
    = {| session := session st; disk := disk st;
         events := events st ++ concat blocks |}
    /\ Forall2 (fun file evs => uploads_read evs = [filename file]
                                /\ inference_calls evs <= 1) files blocks
    /\ uploads_read (concat blocks) = map filename files.
Proof.
  intros Hsess Hlen.
  destruct (batch_predict_accepted sess st files Hsess Hlen)
    as (results & blocks & Hrun & _ & Htraces).
  exists blocks. rewrite Hrun.
  split; [reflexivity | split; [exact Htraces | apply traces_read, Htraces]].
Qed.

(** Computations that only add events compose. *)
Lemma only_logs_ret {A} (a : A) : only_logs (ret a).
Proof.
  intros st r st' [= _ <-]. exists []. unfold adds.
  rewrite app_nil_r. destruct st; reflexivity.
Qed.

Lemma only_logs_raise {A} (e : exn) : only_logs (raise (A := A) e).
Proof.
  intros st r st' [= _ <-]. exists []. unfold adds.
  rewrite app_nil_r. destruct st; reflexivity.
Qed.

Lemma only_logs_lift {A} (x : result A) : only_logs (lift x).
Proof.
  intros st r st' [= _ <-]. exists []. unfold adds.
  rewrite app_nil_r. destruct st; reflexivity.
Qed.

Lemma only_logs_gets {A} (f : state -> A) : only_logs (gets f).
Proof.
  intros st r st' [= _ <-]. exists []. unfold adds.
  rewrite app_nil_r. destruct st; reflexivity.
Qed.

Lemma only_logs_emit (e : event) : only_logs (emit e).
Proof. intros st r st' [= _ <-]. exists [e]. reflexivity. Qed.

Lemma adds_trans st evs st1 evs' st2 :
  adds st evs st1 -> adds st1 evs' st2 -> adds st (evs ++ evs') st2.
Proof.
  unfold adds. intros -> ->. simpl. rewrite <- app_assoc. reflexivity.
Qed.

Lemma only_logs_bind {A B} (c : Comp state A) (k : A -> Comp state B) :
  only_logs c -> (forall a, only_logs (k a)) -> only_logs (bind c k).
Proof.
  intros Hc Hk st r st'. unfold bind.
  destruct (c st) as [[a|e] st1] eqn:Hrun.
  - intros Hrun'. destruct (Hc _ _ _ Hrun) as [evs Hevs].
    destruct (Hk a _ _ _ Hrun') as [evs' Hevs'].
    exists (evs ++ evs')%list. eapply adds_trans; eassumption.
  - intros [= _ <-]. exact (Hc _ _ _ Hrun).
Qed.

Lemma only_logs_try_except {A} (c : Comp state A) (h : exn -> Comp state A) :
  only_logs c -> (forall e, only_logs (h e)) -> only_logs (try_except c h).
Proof.
  intros Hc Hh st r st'. unfold try_except.
  destruct (c st) as [[a|e] st1] eqn:Hrun.
  - intros [= _ <-]. exact (Hc _ _ _ Hrun).
  - intros Hrun'. destruct (Hc _ _ _ Hrun) as [evs Hevs].
    destruct (Hh e _ _ _ Hrun') as [evs' Hevs'].
    exists (evs ++ evs')%list. eapply adds_trans; eassumption.
Qed.

Ltac only_logs :=
  repeat first
    [ apply only_logs_ret | apply only_logs_raise | apply only_logs_lift
    | apply only_logs_gets | apply only_logs_emit
    | apply only_logs_bind; [| intros ?]
    | apply only_logs_try_except; [| intros ?]
    | match goal with
      | |- only_logs (match ?x with _ => _ end) => destruct x
      end ].

Lemma batch_loop_only_logs sess files :
  forall results, only_logs (batch_loop sess files results).
Proof.
  induction files as [|file files IH]; intros results; simpl.
  - apply only_logs_ret.
  - apply only_logs_bind; [| intros r; apply IH].
    unfold batch_try, batch_except, read, run. only_logs.
Qed.

(** X10.  The handlers of [app/main.py] never touch the session or the
    disk: whatever they return or raise, the state they leave is the
    state they found with events added. *)
Theorem handlers_only_log :
  (forall file, only_logs (predict file))
  /\ (forall files, only_logs (batch_predict files))
  /\ only_logs root
  /\ only_logs health_check.
Proof.
  split; [| split; [| split]].
  - intros file. unfold predict, logger_info, logger_error, read, run.
    only_logs.
  - intros files. unfold batch_predict.
    apply only_logs_bind; [apply only_logs_gets |].
    intros [sess|]; [| apply only_logs_raise].
    destruct (10 <? length files)%nat; [apply only_logs_raise |].
    apply only_logs_bind; [apply batch_loop_only_logs |].
    intros results. apply only_logs_lift.
  - unfold root. only_logs.
  - unfold health_check. only_logs.
Qed.

(** X11.  The startup of [app/main.py] succeeds exactly when the
    artifact exists, onnxruntime opens it and the model has at least one
    input and one output; the session is then that model and the log
    holds the four lines of [load_model]. *)
Theorem startup_serving_iff d st :
  startup d = Serving st
  <-> path_exists MODEL_PATH d = true
      /\ exists sess input inputs output outputs,
           InferenceSession MODEL_PATH d = Ok sess
           /\ get_inputs sess = input :: inputs
           /\ get_outputs sess = output :: outputs
           /\ st = {| session := Some sess; disk := d;
                      events :=
                        [Log "INFO" ("Loading ONNX model from " ++ MODEL_PATH);
                         Log "INFO" "Model loaded successfully!";
                         Log "INFO" ("Input: " ++ name input ++ " - Shape: "
                                     ++ shape input);
                         Log "INFO" ("Output: " ++ name output)] |}.
Proof.
  unfold startup, load_model, logger_info, logger_error, set_session, emit,
    initial.
  monad_unfold. simpl.
  destruct (path_exists MODEL_PATH d); simpl;
    [| split; [discriminate | intros [Hex _]; discriminate]].
  destruct (InferenceSession MODEL_PATH d) as [sess|e]; simpl;
    [| split; [discriminate
              | intros (_ & s & i & ins & o & outs & Hs & _); discriminate]].
  destruct (get_inputs sess) as [|input inputs] eqn:Hin; simpl;
    [split; [discriminate
            | intros (_ & s & i & ins & o & outs & [= <-] & Hi & _); congruence] |].
  destruct (get_outputs sess) as [|output outputs] eqn:Hout; simpl;
    [split; [discriminate
            | intros (_ & s & i & ins & o & outs & [= <-] & _ & Ho & _);
              congruence] |].
  split.
  - intros [= <-]. split; [reflexivity |].
    exists sess, input, inputs, output, outputs. repeat split; assumption.
  - intros (_ & s & i & ins & o & outs & [= <-] & Hi & Ho & ->).
    rewrite Hin in Hi. rewrite Hout in Ho.
    injection Hi as <- <-. injection Ho as <- <-. reflexivity.
Qed.

(** X12.  In every serving state [health_check] answers healthy and
    [root] reports the model as loaded, leaving the state as it is. *)
Theorem serving_is_healthy st :
  serving st ->
  health_check st
  = (Ok (JDict [("status", JStr "healthy"); ("model", JStr "loaded")]), st)
  /\ exists j, root st = (Ok j, st)
               /\ field "model_loaded" j = Some (JBool true).
Proof.
  intros Hserving. destruct (serving_loaded st Hserving) as [sess Hsess].
  unfold health_check, root, bind, gets, ret. rewrite Hsess.
  split; [reflexivity |]. eexists. split; reflexivity.
Qed.
(** X28.  An accepted batch of which some classified file has a
    confidence that is an infinity or a NaN is processed to the end,
    every upload being read, and then fails as a whole: the response
    cannot be rendered, and the [ValueError] of the encoder is raised
    outside every [try] of the handler. *)
Theorem batch_predict_not_rendered st sess files :
  session st = Some sess -> length files <= 10 ->
  ~ Forall (finite_confidence sess) files ->
  exists x blocks,
    is_finite x = false
    /\ batch_predict files st
       = (Raise (out_of_range x),
          {| session := session st; disk := disk st;
             events := events st ++ concat blocks |})
    /\ uploads_read (concat blocks) = map filename files.
Proof.
  intros Hsess Hlen Hsome.
  destruct (batch_predict_accepted sess st files Hsess Hlen)
    as (results & blocks & Hrun & Hall & Htraces).
  destruct (outcomes_refused sess files results Hall) as [Hnone Hx].
  rewrite Hrun. unfold json_response. simpl.
  destruct (first_some (map refused results)) as [x|].
  - exists x, blocks.
    split; [apply Hx; reflexivity |].
    split; [reflexivity | apply traces_read, Htraces].
  - exfalso. apply Hsome, Hnone. reflexivity.
Qed.
End MainCoverage.

(** ** More on [scripts/app.py] *)

Section ScriptsCoverage.
Context `{Platform}.
Import Scripts.

(** X13.  [load_model] of [scripts/app.py] never raises and leaves the
    disk alone; it answers [True] exactly when the artifact exists and
    opens, the session then being that model, and on [False] the session
    is what it was. *)
Theorem load_model_outcome st :
  exists ok st',
    load_model st = (Ok ok, st')
    /\ disk st' = disk st
    /\ (ok = true
        <-> path_exists model_path (disk st) = true
            /\ exists sess, InferenceSession model_path (disk st) = Ok sess
                            /\ ort_session st' = Some sess)
    /\ (ok = false -> ort_session st' = ort_session st).
Proof.
  unfold load_model, print, set_session, emit. monad_unfold.
  destruct (path_exists model_path (disk st)); simpl.
  - destruct (InferenceSession model_path (disk st)) as [sess|e]; simpl.
    + do 2 eexists. split; [reflexivity |]. simpl.
      split; [reflexivity | split; [| discriminate]].
      split; [intros _; split; [reflexivity | eauto] | reflexivity].
    + do 2 eexists. split; [reflexivity |]. simpl.
      split; [reflexivity | split; [| reflexivity]].
      split; [discriminate | intros (_ & sess & Hs & _); discriminate].
  - do 2 eexists. split; [reflexivity |]. simpl.
    split; [reflexivity | split; [| reflexivity]].
    split; [discriminate | intros (Hex & _); discriminate].
Qed.

(** X14.  After the startup event of a fresh process, [health_check]
    answers with the given timestamp and [root] reports the same
    [model_loaded] flag; the service is healthy and loaded when the
    artifact exists and opens, and degraded and not loaded otherwise.
    Neither raises. *)
Theorem health_after_startup st now :
  ort_session st = None ->
  exists st1 j r,
    startup_event st = (Ok tt, st1)
    /\ health_check now st1 = (Ok j, st1)
    /\ root st1 = (Ok r, st1)
    /\ field "timestamp" j = Some (JStr now)
    /\ field "model_loaded" r = field "model_loaded" j
    /\ ((path_exists model_path (disk st) = true
         /\ exists sess, InferenceSession model_path (disk st) = Ok sess)
        -> field "status" j = Some (JStr "healthy")
           /\ field "model_loaded" j = Some (JBool true))
    /\ (~ (path_exists model_path (disk st) = true
           /\ exists sess, InferenceSession model_path (disk st) = Ok sess)
        -> field "status" j = Some (JStr "degraded")
           /\ field "model_loaded" j = Some (JBool false)).
Proof.
  intros Hnone.
  unfold startup_event, health_check, root, load_model, print, set_session,
    emit.
  monad_unfold. simpl.
  destruct (path_exists model_path (disk st)); simpl.
  - destruct (InferenceSession model_path (disk st)) as [sess|e]; simpl.
    + do 3 eexists. do 5 (split; [reflexivity |]). split.
      * intros _. split; reflexivity.
      * intros Hno. exfalso. apply Hno. eauto.
    + rewrite Hnone. do 3 eexists. do 5 (split; [reflexivity |]). split.
      * intros (_ & sess & Hs). discriminate.
      * intros _. split; reflexivity.
  - rewrite Hnone. do 3 eexists. do 5 (split; [reflexivity |]). split.
    + intros (Hex & _). discriminate.
    + intros _. split; reflexivity.
Qed.

(** The module body only creates directories. *)
Lemma module_body_run (l : list string) : forall st,
  (forall p d, In p l -> exists d', makedirs p d = Ok d') ->
  exists d',
    for_each l os_makedirs st
    = (Ok tt, {| ort_session := ort_session st; disk := d';
                 events := events st |}).
Proof.
  induction l as [|p l IH]; intros st Hcan; simpl.
  - exists (disk st). destruct st; reflexivity.
  - destruct (Hcan p (disk st) (or_introl eq_refl)) as [d1 Hd1].
    unfold os_makedirs, set_disk. monad_unfold. rewrite Hd1.
    destruct (IH {| ort_session := ort_session st; disk := d1;
                    events := events st |}) as [d' Hrun].
    { intros q d Hq. apply Hcan. right. exact Hq. }
    fold (@for_each H string). unfold os_makedirs, set_disk in Hrun.
    monad_unfold. rewrite Hrun. exists d'. reflexivity.
Qed.

(** X15.  A process of [scripts/app.py] starts whenever its seven
    directories can be created, whatever becomes of the model: the
    module body and the startup event complete without raising. *)
Theorem boot_completes d :
  (forall p d0, In p directories -> exists d', makedirs p d0 = Ok d') ->
  exists st, boot d = (Ok tt, st).
Proof.
  intros Hcan. unfold boot, module_body.
  destruct (module_body_run directories (initial d) Hcan) as [d' Hrun].
  unfold bind. rewrite Hrun.
  match goal with
  | |- context [startup_event ?s] =>
      destruct (startup_event_total s) as (st & Hstart & _)
  end.
  exists st. exact Hstart.
Qed.

(** X16.  Without a model, [predict] of [scripts/app.py] reads and
    decodes the upload first and then raises the 500 of an unloaded
    model, which its [except HTTPException] clause lets through; no
    inference call is made. *)
Theorem predict_while_unloaded now file ct image0 image st :
  ort_session st = None ->
  content_type file = Some ct -> String.prefix "image/" ct = true ->
  image_open (contents file) = Ok image0 ->
  image_convert "RGB" image0 = Ok image ->
  predict now file st
  = (Raise (HTTPException 500 "Model not loaded"),
     {| ort_session := None; disk := disk st;
        events := events st ++ [ReadUpload (filename file)] |}).
Proof.
  intros Hnone Hct Himg Hopen Hconv.
  unfold predict, read, emit, startswith. monad_unfold.
  rewrite Hct, Himg. simpl. rewrite Hopen. simpl. rewrite Hconv. simpl.
  unfold predict_image, bind, gets. simpl. rewrite Hnone. reflexivity.
Qed.

(** X17.  Whatever [predict] of [scripts/app.py] raises is an
    [HTTPException]: any other exception is answered in the body. *)
Theorem predict_raises_only_http now file st e st' :
  predict now file st = (Raise e, st') ->
  exists status detail, e = HTTPException status detail.
Proof.
  unfold predict, try_except.
  match goal with
  | |- context [match ?body st with _ => _ end] =>
      destruct (body st) as [[resp|e0] st1]
  end; [discriminate |].
  destruct e0 as [status detail | cls msg].
  - intros [= <- _]. eauto.
  - unfold print, emit. monad_unfold. simpl. discriminate.
Qed.

(** X18.  [predict] of [scripts/app.py] answers the failures that
    precede the inference in the body of a 500 response, without raising
    and without any inference call: the [AttributeError] of an upload
    without content type (here the check is inside the [try]), before
    the upload is read, and the exception of an image upload that PIL
    cannot open, after it is read. *)
Theorem predict_answers_failures_in_body now file st :
  (content_type file = None ->
   let e := PyException "AttributeError"
              "'NoneType' object has no attribute 'startswith'" in
   predict now file st
   = (Ok (JSONResponse 500
            (JDict [("success", JBool false);
                    ("error", JStr (str_exn e));
                    ("message", JStr "Prediction failed")])),
      {| ort_session := ort_session st; disk := disk st;
         events := events st
                   ++ [Print ("❌ Error during prediction:" ++ nl);
                       PrintExc e] |}))
  /\ (forall ct cls msg,
        content_type file = Some ct -> String.prefix "image/" ct = true ->
        image_open (contents file) = Raise (PyException cls msg) ->
        predict now file st
        = (Ok (JSONResponse 500
                 (JDict [("success", JBool false);
                         ("error", JStr (str_exn (PyException cls msg)));
                         ("message", JStr "Prediction failed")])),
           {| ort_session := ort_session st; disk := disk st;
              events := events st
                        ++ [ReadUpload (filename file);
                            Print ("❌ Error during prediction:" ++ nl);
                            PrintExc (PyException cls msg)] |})).
Proof.
  split.
  - intros Hct. unfold predict, read, print, emit, startswith. monad_unfold.
    rewrite Hct. simpl. rewrite <- !app_assoc. reflexivity.
  - intros ct cls msg Hct Himg Hopen.
    unfold predict, read, print, emit, startswith. monad_unfold.
    rewrite Hct, Himg. simpl. rewrite Hopen. simpl.
    rewrite <- !app_assoc. reflexivity.
Qed.

(** The run of [predict_image] on an image that goes through every
    stage. *)
Lemma predict_image_run image st sess tensor input inputs logits rows rest
      m i cls p dist :
  ort_session st = Some sess ->
  preprocess_image image = Ok tensor ->
  get_inputs sess = input :: inputs ->
  session_run sess None (name input, tensor)
  = Ok ((logits :: rows) :: rest) ->
  np_max logits = Ok m ->
  np_argmax (softmax logits m) = Ok i ->
  index i class_names = Ok cls ->
  np_getitem i (softmax logits m) = Ok p ->
  probabilities (softmax logits m) 0 (length class_names) [] = Ok dist ->
  predict_image image st
  = (Ok [("predicted_class", JStr cls);
         ("confidence", JFloat (percent p));
         ("probabilities", JDict dist)],
     {| ort_session := ort_session st; disk := disk st;
        events := events st ++ [SessionRun] |}).
Proof.
  unfold softmax. intros Hsess Hpre Hin Hrun Hmax Hargmax Hcls Hp Hdist.
  unfold predict_image, bind at 1, gets. rewrite Hsess.
  unfold run, print, emit. monad_unfold. simpl.
  rewrite Hpre. simpl. rewrite Hin. simpl. rewrite Hrun. simpl.
  rewrite Hmax. simpl. rewrite Hargmax. simpl. rewrite Hcls. simpl.
  rewrite Hp. simpl. simpl in Hdist. rewrite Hdist. simpl.
  rewrite ?Hsess. reflexivity.
Qed.

(** X19.  For a model with two outputs, [predict_image] answers with
    the class of the larger probability, [front] on a tie; should a
    probability be a NaN, it answers with the class of the first NaN.
    The answer lists the percentages of both classes under [front] and
    [rear] and gives as confidence the percentage listed for the
    predicted class; one inference call is made. *)
Theorem predict_image_two_classes image st sess tensor input inputs a b
        rows rest :
  ort_session st = Some sess ->
  preprocess_image image = Ok tensor ->
  get_inputs sess = input :: inputs ->
  session_run sess None (name input, tensor) = Ok (([a; b] :: rows) :: rest) ->
  exists m p0 p1,
    np_max [a; b] = Ok m
    /\ softmax [a; b] m = [p0; p1]
    /\ let front := (is_nan p0 || float_le p1 p0)%bool in
       let cls := if front then "front" else "rear" in
       let p := if front then p0 else p1 in
       predict_image image st
       = (Ok [("predicted_class", JStr cls);
              ("confidence", JFloat (percent p));
              ("probabilities",
               JDict [("front", JFloat (percent p0));
                      ("rear", JFloat (percent p1))])],
          {| ort_session := ort_session st; disk := disk st;
             events := events st ++ [SessionRun] |})
       /\ dict_get cls [("front", JFloat (percent p0));
                        ("rear", JFloat (percent p1))]
          = Some (JFloat (percent p)).
Proof.
  intros Hsess Hpre Hin Hrun.
  set (m := max_from a [b]).
  destruct (softmax [a; b] m) as [|p0 [|p1 [|p2 l]]] eqn:Hsoft;
    try discriminate Hsoft.
  exists m, p0, p1.
  split; [reflexivity | split; [exact Hsoft |]]. cbv zeta.
  assert (Hargmax : np_argmax [p0; p1]
                    = Ok (if (is_nan p0 || float_le p1 p0)%bool
                          then 0 else 1)).
  { unfold np_argmax. simpl. destruct (is_nan p0); reflexivity. }
  destruct (is_nan p0 || float_le p1 p0)%bool.
  - split; [| reflexivity].
    apply (predict_image_run image st sess tensor input inputs [a; b]
             rows rest m 0 "front" p0
             [("front", JFloat (percent p0)); ("rear", JFloat (percent p1))]);
      try assumption; try reflexivity; rewrite Hsoft; try reflexivity.
    exact Hargmax.
  - split; [| reflexivity].
    apply (predict_image_run image st sess tensor input inputs [a; b]
             rows rest m 1 "rear" p1
             [("front", JFloat (percent p0)); ("rear", JFloat (percent p1))]);
      try assumption; try reflexivity; rewrite Hsoft; try reflexivity.
    exact Hargmax.
Qed.

(** X20.  A model with fewer outputs than class names makes
    [predict_image] raise the 500 of a failed prediction, after its one
    inference call: no score row is shorter than the class list without
    an error. *)
Theorem predict_image_too_few_outputs image st sess tensor input inputs
        logits rows rest :
  ort_session st = Some sess ->
  preprocess_image image = Ok tensor ->
  get_inputs sess = input :: inputs ->
  session_run sess None (name input, tensor)
  = Ok ((logits :: rows) :: rest) ->
  length logits < length class_names ->
  exists e evs,
    predict_image image st
    = (Raise (HTTPException 500 ("Prediction error: " ++ str_exn e)),
       {| ort_session := ort_session st; disk := disk st;
          events := events st ++ evs |})
    /\ inference_calls evs = 1.
Proof.
  intros Hsess Hpre Hin Hrun Hlen.
  unfold predict_image, bind at 1, gets. rewrite Hsess.
  unfold run, print, emit. monad_unfold. simpl.
  rewrite Hpre. simpl. rewrite Hin. simpl. rewrite Hrun. simpl.
  rewrite <- ?app_assoc. rewrite ?Hsess.
  destruct logits as [|a [|b l]]; simpl in Hlen; [| | lia].
  - simpl. rewrite <- ?app_assoc. do 2 eexists.
    split; [reflexivity | reflexivity].
  - simpl. rewrite <- ?app_assoc. do 2 eexists.
    split; [reflexivity | reflexivity].
Qed.

(** X22.  [correct_prediction] never raises.  It answers 500 with
    [success: false] and the message [Correction failed], or 200 with
    [success: true] and a message that announces the retraining exactly
    when the signal is true. *)
Theorem correct_prediction_always_answers
        now file predicted_class correct_class st :
  exists resp st',
    correct_prediction now file predicted_class correct_class st
    = (Ok resp, st')
    /\ ((status_code resp = 500%Z
         /\ field "success" (content resp) = Some (JBool false)
         /\ message resp = Some "Correction failed")
        \/ (status_code resp = 200%Z
            /\ field "success" (content resp) = Some (JBool true)
            /\ (signal resp = Some false
                /\ message resp = Some "Correction saved successfully"
                \/ signal resp = Some true
                   /\ message resp
                      = Some ("Correction saved successfully"
                              ++ " - Retraining will be triggered")))).
Proof.
  unfold correct_prediction, os_makedirs, save, os_listdir, set_disk,
    read, print, emit.
  monad_unfold.
  destruct (existsb (String.eqb correct_class) class_names); simpl;
    [| do 2 eexists; split; [reflexivity | left; repeat split]].
  destruct (image_open (contents file)) as [image0|e]; simpl;
    [| do 2 eexists; split; [reflexivity | left; repeat split]].
  destruct (image_convert "RGB" image0) as [image|e]; simpl;
    [| do 2 eexists; split; [reflexivity | left; repeat split]].
  destruct (makedirs _ (disk st)) as [d1|e]; simpl;
    [| do 2 eexists; split; [reflexivity | left; repeat split]].
  destruct (image_save _ image d1) as [d2|e]; simpl;
    [| do 2 eexists; split; [reflexivity | left; repeat split]].
  destruct (listdir "corrections/front" d2) as [front|e]; simpl;
    [| do 2 eexists; split; [reflexivity | left; repeat split]].
  destruct (listdir "corrections/rear" d2) as [rear|e]; simpl;
    [| do 2 eexists; split; [reflexivity | left; repeat split]].
  destruct (retrain_threshold <=? _)%Z; simpl;
    (do 2 eexists; split; [reflexivity |]; right;
     split; [reflexivity | split; [reflexivity |]]);
    [right | left]; split; reflexivity.
Qed.

(** X23.  A correction with a valid class whose upload does not decode
    is answered 500 with the text of the exception; the upload was read
    but the disk is unchanged. *)
Theorem correction_not_decoded_saves_nothing
        now file predicted_class correct_class st e :
  In correct_class class_names ->
  image_open (contents file) = Raise e
  \/ (exists image0, image_open (contents file) = Ok image0
                     /\ image_convert "RGB" image0 = Raise e) ->
  correct_prediction now file predicted_class correct_class st
  = (Ok (JSONResponse 500
           (JDict [("success", JBool false);
                   ("error", JStr (str_exn e));
                   ("message", JStr "Correction failed")])),
     {| ort_session := ort_session st; disk := disk st;
        events := events st
                  ++ [ReadUpload (filename file);
                      Print ("❌ Correction error:" ++ nl);
                      PrintExc e] |}).
Proof.
  intros Hvalid Hfail.
  assert (Hex : existsb (String.eqb correct_class) class_names = true).
  { apply existsb_exists. exists correct_class.
    split; [exact Hvalid | apply String.eqb_refl]. }
  unfold correct_prediction, os_makedirs, save, os_listdir, set_disk,
    read, print, emit.
  monad_unfold. rewrite Hex. simpl.
  destruct Hfail as [Hopen | (image0 & Hopen & Hconv)].
  - rewrite Hopen. simpl. rewrite <- !app_assoc. reflexivity.
  - rewrite Hopen. simpl. rewrite Hconv. simpl.
    rewrite <- !app_assoc. reflexivity.
Qed.

Lemma get_stats_state st : snd (get_stats st) = st.
Proof.
  unfold get_stats. unfold bind at 1. rewrite count_entries_run.
  destruct (enumerated_if_exists "corrections/front" (disk st));
    [| reflexivity].
  unfold bind at 1. rewrite count_entries_run.
  destruct (enumerated_if_exists "corrections/rear" (disk st));
    reflexivity.
Qed.

(** X24.  [get_stats] leaves the state as it is, whether it answers or
    raises; asking again gives the same result. *)
Theorem get_stats_reads_only st :
  snd (get_stats st) = st
  /\ get_stats (snd (get_stats st)) = get_stats st.
Proof.
  split; [apply get_stats_state | rewrite get_stats_state; reflexivity].
Qed.

(** X25.  Correction directories that do not exist count as empty: when
    both are missing, [get_stats] answers 200 with a tally of zero
    instead of failing. *)
Theorem get_stats_missing_directories st :
  path_exists "corrections/front" (disk st) = false ->
  path_exists "corrections/rear" (disk st) = false ->
  exists resp,
    get_stats st = (Ok resp, st)
    /\ status_code resp = 200%Z
    /\ tally resp = Some (0%Z, 0%Z, 0%Z).
Proof.
  intros Hfront Hrear.
  unfold get_stats. unfold bind at 1. rewrite count_entries_run.
  unfold enumerated_if_exists at 1. rewrite Hfront.
  unfold bind at 1. rewrite count_entries_run.
  unfold enumerated_if_exists at 1. rewrite Hrear.
  unfold bind, gets, ret. eexists. repeat split.
Qed.

(** X26.  The stats query that follows a saved correction reports the
    tally that the correction reported, provided the two directories
    exist on the disk it left. *)
Theorem stats_agree_with_correction
        now file predicted_class correct_class st resp st' :
  correct_prediction now file predicted_class correct_class st
  = (Ok resp, st') ->
  status_code resp = 200%Z ->
  path_exists "corrections/front" (disk st') = true ->
  path_exists "corrections/rear" (disk st') = true ->
  exists resp',
    get_stats st' = (Ok resp', st')
    /\ tally resp' = tally resp.
Proof.
  intros Hrun Hok Hfront Hrear.
  destruct (correct_prediction_cases now file predicted_class correct_class st)
    as (resp0 & st0 & Hrun0 & Hcases).
  rewrite Hrun in Hrun0. injection Hrun0 as <- <-.
  destruct Hcases as [(Hko & _) | (front & rear & Hf & Hr & _ & Htally & _)];
    [congruence |].
  pose proof (stats_tally_disk st') as Hstats.
  unfold enumerated_if_exists in Hstats.
  rewrite Hfront, Hrear, Hf, Hr in Hstats.
  unfold stats_tally in Hstats.
  destruct (get_stats st') as [[resp'|e] st1] eqn:Hget; [| discriminate].
  pose proof (get_stats_state st') as Hsame.
  rewrite Hget in Hsame. simpl in Hsame. subst st1.
  exists resp'. split; [reflexivity |]. simpl in Hstats. congruence.
Qed.
End ScriptsCoverage.

(** ** The decision of both services *)

Lemma nth_error_lookup {A} (l : list A) : forall i, nth_error l i = l !! i.
Proof.
  induction l as [|x l IH]; intros [|i]; simpl; try reflexivity. apply IH.
Qed.

Section Decision.
Context `{Platform}.

(** C6, as amended.  In [app/main.py], for a file that goes through
    every stage of [predict] with a non-empty score array, let [x] be
    the maximum of the raw scores as NumPy finds it, at position [i].
    When [x] is finite, the response is a 200 that reports [i] as
    [class_index] and [x] rounded to four decimals as [confidence]; the
    label is [classes[i]] when [i] is within the class list and
    ["unknown"] otherwise, never a failure; and the confidence lies in
    [0, 1] whenever every raw score does.  When [x] is an infinity or a
    NaN, the response cannot be rendered and [predict] raises the 500.
    In [scripts/app.py], for a model that has at least as many outputs
    as there are class names, let [p] be the maximum of the softmax
    probabilities, at position [i].  When [i] is within the class list,
    [predict_image] answers with the class name at [i] and with [p] as a
    percentage rounded to two decimals as confidence. *)
Theorem predict_decision :
  (forall (st : Main.state) sess file output,
      Main.session st = Some sess ->
      Main.scores_of sess file output ->
      concat output <> [] ->
      exists i x,
        maximum_at (concat output) i x
        /\ match x with
           | Finite c =>
               (exists st',
                   Main.predict file st
                   = (Ok (JSONResponse 200
                            (JDict [("success", JBool true);
                                    ("prediction",
                                     JDict [("label",
                                             JStr (match Main.classes !! i with
                                                   | Some c => c
                                                   | None => "unknown"
                                                   end));
                                            ("class_index", JInt (Z.of_nat i));
                                            ("confidence",
                                             JFloat (Finite (py_round c 4)))]);
                                    ("filename", JStr (filename file))])),
                      st'))
               /\ (Forall Main.unit_score (concat output) ->
                   (0 <= py_round c 4 <= 1)%Q)
           | _ =>
               exists st',
                 Main.predict file st
                 = (Raise (HTTPException 500
                             ("Prediction failed: "
                              ++ str_exn (out_of_range x))),
                    st')
           end)
  /\ (forall (st : Scripts.state) sess image tensor input inputs logits
             rows rest,
         Scripts.ort_session st = Some sess ->
         Scripts.preprocess_image image = Ok tensor ->
         get_inputs sess = input :: inputs ->
         session_run sess None (name input, tensor)
         = Ok ((logits :: rows) :: rest) ->
         length Scripts.class_names <= length logits ->
         exists m i p,
           np_max logits = Ok m
           /\ maximum_at (Scripts.softmax logits m) i p
           /\ (i < length Scripts.class_names ->
               exists cls dist st',
                 Scripts.class_names !! i = Some cls
                 /\ Scripts.predict_image image st
                    = (Ok [("predicted_class", JStr cls);
                           ("confidence", JFloat (Scripts.percent p));
                           ("probabilities", JDict dist)], st'))).
Proof.
  split.
  - intros st sess file output Hsess Hscores Hne.
    destruct Hscores as [ct image0 image input out inputs outputs rest
                           Hct Himg Hopen Hconv Hin Hout Hrun].
    destruct (np_argmax_max (concat output) Hne)
      as (i & x & Hargmax & Hmax & Hat).
    exists i, x. split; [exact Hat |]. destruct Hat as [Hi _].
    destruct x as [c| | |];
      (unfold Main.predict, bind at 1, gets; rewrite Hsess;
       unfold bind at 1, lift, startswith; rewrite Hct, Himg;
       simpl negb; cbv iota;
       unfold Main.logger_info, Main.logger_error, Main.read, Main.run,
         Main.emit;
       monad_unfold; simpl;
       rewrite Hopen; simpl; rewrite Hconv; simpl;
       rewrite Hin, Hout; simpl; rewrite Hrun; simpl;
       unfold Main.postprocess_output; rewrite Hargmax, Hmax; simpl;
       rewrite get_class_name_spec; unfold json_response; simpl);
      try (eexists; reflexivity).
    split; [eexists; reflexivity |].
    intros Hunit. apply py_round_unit.
    rewrite Forall_forall in Hunit.
    apply (Hunit (Finite c)). eapply list_elem_of_lookup_2, Hi.
  - intros st sess image tensor input inputs logits rows rest
           Hsess Hpre Hin Hrun Hlen.
    destruct logits as [|a [|b l]]; simpl in Hlen; try lia.
    set (m := max_from a (b :: l)).
    destruct (Scripts.softmax (a :: b :: l) m) as [|p0 [|p1 ps]] eqn:Hsoft;
      try discriminate Hsoft.
    destruct (np_argmax_max (p0 :: p1 :: ps) ltac:(discriminate))
      as (i & p & Hargmax & _ & Hat).
    exists m, i, p.
    split; [reflexivity | split; [rewrite Hsoft; exact Hat |]].
    intros Hi. destruct Hat as [Hp _].
    assert (Hget : np_getitem i (Scripts.softmax (a :: b :: l) m) = Ok p).
    { unfold np_getitem. rewrite Hsoft, nth_error_lookup, Hp. reflexivity. }
    destruct i as [|[|i]]; [| | simpl in Hi; lia].
    + exists "front". do 2 eexists. split; [reflexivity |].
      eapply (predict_image_run image st sess tensor input inputs
                (a :: b :: l) rows rest m 0 "front" p); try eassumption;
        try reflexivity; rewrite Hsoft; first [exact Hargmax | reflexivity].
    + exists "rear". do 2 eexists. split; [reflexivity |].
      eapply (predict_image_run image st sess tensor input inputs
                (a :: b :: l) rows rest m 1 "rear" p); try eassumption;
        try reflexivity; rewrite Hsoft; first [exact Hargmax | reflexivity].
Qed.
End Decision.

(** ** Paths *)

Lemma list_ascii_of_string_app (s1 s2 : string) :
  list_ascii_of_string (s1 ++ s2)
  = (list_ascii_of_string s1 ++ list_ascii_of_string s2)%list.
Proof.
  induction s1 as [|c s1 IH]; simpl; [reflexivity |]. rewrite IH. reflexivity.
Qed.

Lemma forallb_rev {A} (f : A -> bool) (l : list A) :
  forallb f (rev l) = forallb f l.
Proof.
  induction l as [|x l IH]; simpl; [reflexivity |].
  rewrite forallb_app, IH. simpl. rewrite andb_true_r. apply andb_comm.
Qed.

Lemma drop_until_slash_app (r tail : list ascii) :
  forallb (fun c => negb (is_slash c)) r = true ->
  drop_until_slash (r ++ "/"%char :: tail) = "/"%char :: tail.
Proof.
  induction r as [|c r IH]; simpl; [reflexivity |].
  intros Hfree. apply andb_prop in Hfree as [Hc Hr].
  destruct (is_slash c); [discriminate | apply IH, Hr].
Qed.

Lemma prefix_cons (a b : ascii) (s1 s2 : string) :
  String.prefix (String a s1) (String b s2)
  = if ascii_dec a b then String.prefix s1 s2 else false.
Proof. reflexivity. Qed.

Lemma prefix_empty (s : string) : String.prefix "" s = true.
Proof. destruct s; reflexivity. Qed.

Lemma prefix_slash_app (s t : string) :
  String.prefix "/" s = false -> String.prefix "/" ("_" ++ t) = false ->
  String.prefix "/" (s ++ "_" ++ t) = false.
Proof.
  destruct s as [|c s]; [auto |]. intros Hs _.
  change (String c s ++ "_" ++ t) with (String c (s ++ "_" ++ t)).
  rewrite prefix_cons in *.
  destruct (ascii_dec "/" c); [| reflexivity].
  rewrite prefix_empty in Hs. discriminate.
Qed.

Section Paths.
Context `{Platform}.
Import Scripts.

(** X27.  For a valid class and a clock reading that does not start
    with a slash, the image is saved under
    [corrections/<class>/<now>_<filename>], whatever the filename of the
    upload is; if that name holds no slash, the directory that is
    created is [corrections/<class>]. *)
Theorem save_path_below_class_directory now file correct_class :
  In correct_class class_names ->
  String.prefix "/" now = false ->
  save_path now file correct_class
  = "corrections/" ++ correct_class ++ "/" ++ now ++ "_" ++ filename file
  /\ (slash_free (now ++ "_" ++ filename file) ->
      dirname (save_path now file correct_class)
      = "corrections/" ++ correct_class).
Proof.
  intros Hvalid Hnow.
  assert (Hname : String.prefix "/" (now ++ "_" ++ filename file) = false)
    by (apply prefix_slash_app; [exact Hnow | reflexivity]).
  assert (Hpath : save_path now file correct_class
                  = "corrections/" ++ correct_class ++ "/" ++ now ++ "_"
                    ++ filename file).
  { unfold save_path, path_join, corrections_dir. cbn [fold_left].
    destruct Hvalid as [<- | [<- | []]].
    - change (join2 "corrections" "front") with "corrections/front".
      unfold join2. rewrite Hname. reflexivity.
    - change (join2 "corrections" "rear") with "corrections/rear".
      unfold join2. rewrite Hname. reflexivity. }
  split; [exact Hpath |].
  intros Hfree. rewrite Hpath. unfold slash_free in Hfree.
  rewrite <- forallb_rev in Hfree.
  unfold dirname.
  destruct Hvalid as [<- | [<- | []]].
  - change ("corrections/" ++ "front" ++ "/" ++ now ++ "_" ++ filename file)
      with ("corrections/front/" ++ (now ++ "_" ++ filename file)).
    rewrite list_ascii_of_string_app, rev_app_distr.
    change (rev (list_ascii_of_string "corrections/front/"))
      with ("/"%char :: rev (list_ascii_of_string "corrections/front")).
    rewrite (drop_until_slash_app _ _ Hfree). reflexivity.
  - change ("corrections/" ++ "rear" ++ "/" ++ now ++ "_" ++ filename file)
      with ("corrections/rear/" ++ (now ++ "_" ++ filename file)).
    rewrite list_ascii_of_string_app, rev_app_distr.
    change (rev (list_ascii_of_string "corrections/rear/"))
      with ("/"%char :: rev (list_ascii_of_string "corrections/rear")).
    rewrite (drop_until_slash_app _ _ Hfree). reflexivity.
Qed.
End Paths.

(** ** Runs on the sample platform *)

Lemma batch_too_large_witness :
  Main.batch_predict (H := Sample.platform) Sample.eleven Sample.served
  = (Raise (HTTPException 400 "Maximum 10 images allowed per batch"),
     Sample.served)
  /\ inference_calls
       (Main.events
          (snd (Main.batch_predict (H := Sample.platform)
                  Sample.eleven Sample.served)))
     = inference_calls (Main.events Sample.served).
Proof.
  apply (batch_too_large (H := Sample.platform)).
  - apply (Main.serving_startup (H := Sample.platform)
             (Sample.disk_with Sample.logits)).
    reflexivity.
  - simpl. lia.
Defined.

Lemma batch_outcomes_witness :
  exists sess results st',
    Main.session Sample.served = Some sess
    /\ Main.batch_predict (H := Sample.platform) Sample.three Sample.served
       = (Ok (JSONResponse 200
                (JDict [("success", JBool true);
                        ("total_images",
                         JInt (Z.of_nat (length Sample.three)));
                        ("results", JList results)])), st')
    /\ length results = length Sample.three
    /\ forall i file, Sample.three !! i = Some file ->
         exists r, results !! i = Some r
                   /\ field "filename" r = Some (JStr (filename file))
                   /\ Main.specified_outcome sess file r.
Proof.
  apply (batch_outcomes (H := Sample.platform)).
  - apply (Main.serving_startup (H := Sample.platform)
             (Sample.disk_with Sample.logits)).
    reflexivity.
  - simpl. lia.
  - intros sess [= <-].
    repeat constructor; intros image scores class_index confidence;
      unfold Main.decoded, Main.inferred; simpl; intros Hdec Hinf Hpost;
      try discriminate Hdec.
    + injection Hinf as <-. injection Hpost as _ <-. reflexivity.
    + injection Hinf as <-. injection Hpost as _ <-. reflexivity.
Defined.

Lemma batch_success_flag_witness :
  exists resp st',
    Main.batch_predict (H := Sample.platform) Sample.three Sample.served
    = (Ok resp, st')
    /\ status_code resp = 200%Z
    /\ field "success" (content resp) = Some (JBool true)
    /\ field "total_images" (content resp)
       = Some (JInt (Z.of_nat (length Sample.three))).
Proof.
  apply (batch_success_flag (H := Sample.platform)).
  - apply (Main.serving_startup (H := Sample.platform)
             (Sample.disk_with Sample.logits)).
    reflexivity.
  - simpl. lia.
  - intros sess [= <-].
    repeat constructor; intros image scores class_index confidence;
      unfold Main.decoded, Main.inferred; simpl; intros Hdec Hinf Hpost;
      try discriminate Hdec.
    + injection Hinf as <-. injection Hpost as _ <-. reflexivity.
    + injection Hinf as <-. injection Hpost as _ <-. reflexivity.
Defined.

(** The batch of [Sample.three]: the second upload does not decode, and
    the third is classified all the same. *)
Example batch_with_broken_item :
  fst (Main.batch_predict (H := Sample.platform) Sample.three Sample.served)
  = Ok (JSONResponse 200
          (JDict [("success", JBool true);
                  ("total_images", JInt 3);
                  ("results",
                   JList [JDict [("filename", JStr "a.jpg");
                                 ("success", JBool true);
                                 ("prediction",
                                  JDict [("label", JStr "front_vehicle");
                                         ("class_index", JInt 0);
                                         ("confidence",
                                          JFloat (Finite 2.0000))])];
                          JDict [("filename", JStr "b.jpg");
                                 ("success", JBool false);
                                 ("error",
                                  JStr "cannot identify image file")];
                          JDict [("filename", JStr "c.jpg");
                                 ("success", JBool true);
                                 ("prediction",
                                  JDict [("label", JStr "front_vehicle");
                                         ("class_index", JInt 0);
                                         ("confidence",
                                          JFloat (Finite 2.0000))])]])]))
  /\ inference_calls
       (Main.events
          (snd (Main.batch_predict (H := Sample.platform)
                  Sample.three Sample.served))) = 2.
Proof. vm_compute. split; reflexivity. Qed.

(** C3, as stated, fails on [app/main.py]: with a model that emits a
    NaN among its scores, a batch of one decodable upload is accepted by
    a serving application, the item is classified with the NaN as
    confidence, and then the response cannot be rendered: the handler
    raises a [ValueError] and returns no outcome at all. *)
Lemma batch_without_outcomes :
  Main.serving (H := Sample.platform) Sample.served_nan
  /\ length [Sample.car] <= 10
  /\ fst (Main.batch_predict (H := Sample.platform) [Sample.car]
            Sample.served_nan)
     = Raise (out_of_range (H := Sample.platform) NaN)
  /\ uploads_read
       (Main.events
          (snd (Main.batch_predict (H := Sample.platform) [Sample.car]
                  Sample.served_nan)))
     = ["car.jpg"].
Proof.
  split; [| split; [simpl; lia | split; reflexivity]].
  apply (Main.serving_startup (H := Sample.platform)
           (Sample.disk_with Sample.nan_scores)).
  reflexivity.
Qed.

(** C10, as stated, fails on [app/main.py]: with the same model, the
    accepted batch of [Sample.three] is answered with no response at
    all, hence with no [success: true]. *)
Lemma accepted_batch_without_response :
  Main.serving (H := Sample.platform) Sample.served_nan
  /\ length Sample.three <= 10
  /\ forall resp,
       fst (Main.batch_predict (H := Sample.platform) Sample.three
              Sample.served_nan)
       <> Ok resp.
Proof.
  split; [| split; [simpl; lia | intros resp; discriminate]].
  apply (Main.serving_startup (H := Sample.platform)
           (Sample.disk_with Sample.nan_scores)).
  reflexivity.
Qed.

(** C6, as stated, fails on [app/main.py]: a model whose final layer
    emits the scores 2.0 and 0.5 makes [predict] answer 200 with the
    confidence 2.0, outside [0, 1]. *)
Lemma confidence_outside_unit_interval :
  exists resp c,
    fst (Main.predict (H := Sample.platform)
           (Sample.upload "car.jpg" "pixels") Sample.served) = Ok resp
    /\ status_code resp = 200%Z
    /\ Main.reported_confidence resp = Some (Finite c)
    /\ ~ (0 <= c <= 1)%Q.
Proof.
  eexists. exists (py_round 2 4).
  split; [vm_compute; reflexivity |].
  split; [reflexivity |]. split; [reflexivity |].
  intros [_ Hle]. vm_compute in Hle. apply Hle. reflexivity.
Qed.

Lemma predict_decision_witness :
  (exists i x,
      maximum_at (concat [Sample.logits]) i x
      /\ match x with
         | Finite c =>
             (exists st',
                 Main.predict (H := Sample.platform) Sample.car Sample.served
                 = (Ok (JSONResponse 200
                          (JDict [("success", JBool true);
                                  ("prediction",
                                   JDict [("label",
                                           JStr (match Main.classes !! i with
                                                 | Some c => c
                                                 | None => "unknown"
                                                 end));
                                          ("class_index", JInt (Z.of_nat i));
                                          ("confidence",
                                           JFloat (Finite (py_round c 4)))]);
                                  ("filename", JStr (filename Sample.car))])),
                    st'))
             /\ (Forall Main.unit_score (concat [Sample.logits]) ->
                 (0 <= py_round c 4 <= 1)%Q)
         | _ =>
             exists st',
               Main.predict (H := Sample.platform) Sample.car Sample.served
               = (Raise (HTTPException 500
                           ("Prediction failed: "
                            ++ Sample.render
                                 (out_of_range (H := Sample.platform) x))),
                  st')
         end)
  /\ (exists m i p,
         np_max Sample.logits = Ok m
         /\ maximum_at (Scripts.softmax (H := Sample.platform)
                          Sample.logits m) i p
         /\ (i < length Scripts.class_names ->
             exists cls dist st',
               Scripts.class_names !! i = Some cls
               /\ Scripts.predict_image (H := Sample.platform) "pixels"
                    Sample.loaded
                  = (Ok [("predicted_class", JStr cls);
                         ("confidence",
                          JFloat (Scripts.percent (H := Sample.platform) p));
                         ("probabilities", JDict dist)], st'))).
Proof.
  split.
  - apply (proj1 (predict_decision (H := Sample.platform))
             Sample.served [Sample.logits] Sample.car [Sample.logits]).
    + reflexivity.
    + eapply (Main.Scores (H := Sample.platform)); reflexivity.
    + simpl. discriminate.
  - apply (proj2 (predict_decision (H := Sample.platform))
             Sample.loaded [Sample.logits] "pixels" "pixels"
             {| name := "images"; shape := "[1, 3, 224, 224]" |} []
             Sample.logits [] []); first [reflexivity | simpl; lia].
Defined.

(** With a NaN among the scores, [predict] raises the 500. *)
Example predict_not_a_number :
  fst (Main.predict (H := Sample.platform) Sample.car Sample.served_nan)
  = Raise (HTTPException 500
             ("Prediction failed: "
              ++ "Out of range float values are not JSON compliant")).
Proof. reflexivity. Qed.

Lemma startup_aborts_on_load_failure_witness :
  exists e st,
    Main.startup (H := Sample.platform) Sample.empty_store
    = Main.StartupFailed e st
    /\ Main.session st = None
    /\ In (Log "ERROR" ("Failed to load model: " ++ Sample.render e))
          (Main.events st).
Proof.
  apply (startup_aborts_on_load_failure (H := Sample.platform)
           Sample.empty_store).
  left. vm_compute. reflexivity.
Defined.

(** [scripts/app.py] started without artifact keeps running: the boot
    completes, the session is [None], and an inference call raises the
    500 of an unloaded model. *)
Example scripts_degraded :
  fst (Scripts.boot (H := Sample.platform) Sample.empty_store) = Ok tt
  /\ Scripts.ort_session Sample.degraded = None
  /\ Scripts.events Sample.degraded
     = [Print (nl ++ "🚗 Starting Vehicle Classification API");
        Print "⚠ Model not found at models/best.onnx";
        Print ("⚠️ API started but model not loaded" ++ nl)]
  /\ Scripts.predict (H := Sample.platform) "2025-10-14T10:30:00"
       (Sample.upload "car.jpg" "pixels") Sample.degraded
     = (Raise (HTTPException 500 "Model not loaded"),
        {| Scripts.ort_session := None;
           Scripts.disk := Scripts.disk Sample.degraded;
           Scripts.events := (Scripts.events Sample.degraded
                              ++ [ReadUpload "car.jpg"])%list |}).
Proof. repeat split; reflexivity. Qed.

Lemma retrain_signal_threshold_witness :
  exists front rear,
    Scripts.enumerated (H := Sample.platform) "corrections/front"
      (Scripts.disk (snd (Sample.correct "rear" 59 Sample.forty_nine)))
    = Ok front
    /\ Scripts.enumerated (H := Sample.platform) "corrections/rear"
         (Scripts.disk (snd (Sample.correct "rear" 59 Sample.forty_nine)))
       = Ok rear
    /\ Scripts.threshold
         (Sample.answer (fst (Sample.correct "rear" 59 Sample.forty_nine)))
       = Some 50%Z
    /\ Scripts.signal
         (Sample.answer (fst (Sample.correct "rear" 59 Sample.forty_nine)))
       = Some (50 <=? front + rear)%Z
    /\ ((front + rear = 49)%Z ->
        Scripts.signal
          (Sample.answer (fst (Sample.correct "rear" 59 Sample.forty_nine)))
        = Some false)
    /\ ((front + rear = 50)%Z ->
        Scripts.signal
          (Sample.answer (fst (Sample.correct "rear" 59 Sample.forty_nine)))
        = Some true).
Proof.
  apply (retrain_signal_threshold (H := Sample.platform)
           "20251014_103059" (Sample.upload "car.jpg" "pixels")
           "front" "rear" Sample.forty_nine).
  - reflexivity.
  - reflexivity.
Defined.

(** Fifty corrections on an empty store: the signal is false for the
    first 49 and true for the fiftieth. *)
Example fifty_corrections :
  Sample.signals "rear" 10 50 Sample.degraded
  = (repeat (Some false) 49 ++ [Some true])%list.
Proof. vm_compute. reflexivity. Qed.

Lemma invalid_class_answer_witness :
  exists resp st',
    Scripts.correct_prediction (H := Sample.platform) "20251014_103000"
      (Sample.upload "car.jpg" "pixels") "front" "side" Sample.degraded
    = (Ok resp, st')
    /\ status_code resp = 500%Z
    /\ content resp
       = JDict [("success", JBool false);
                ("error", JStr (Sample.render Scripts.invalid_class));
                ("message", JStr "Correction failed")]
    /\ Scripts.disk st' = Scripts.disk Sample.degraded
    /\ Scripts.events st'
       = (Scripts.events Sample.degraded
          ++ [Print ("❌ Correction error:" ++ nl);
              PrintExc Scripts.invalid_class])%list.
Proof.
  apply (invalid_class_answer (H := Sample.platform)).
  simpl. intros [Hc | [Hc | []]]; discriminate Hc.
Defined.


(** ** More runs on the sample platform *)

#[local] Existing Instance Sample.platform.

Lemma postprocess_output_first_maximum_witness :
  exists i confidence,
    Main.postprocess_output [Sample.nan_scores] = Ok (Z.of_nat i, confidence)
    /\ concat [Sample.nan_scores] !! i = Some confidence
    /\ (Forall (fun y => is_nan y = false) (concat [Sample.nan_scores]) ->
        Forall (fun y => float_le y confidence = true)
          (concat [Sample.nan_scores])
        /\ forall j y, j < i -> concat [Sample.nan_scores] !! j = Some y ->
                       float_lt y confidence = true)
    /\ (Exists (fun y => is_nan y = true) (concat [Sample.nan_scores]) ->
        is_nan confidence = true
        /\ forall j y, j < i -> concat [Sample.nan_scores] !! j = Some y ->
                       is_nan y = false).
Proof.
  apply postprocess_output_first_maximum. simpl. discriminate.
Defined.

(** The decision on these scores: the NaN wins over the 0.5 before
    it. *)
Example postprocess_output_nan :
  Main.postprocess_output [Sample.nan_scores] = Ok (1%Z, NaN)
  /\ Main.postprocess_output [Sample.logits] = Ok (0%Z, Finite 2).
Proof. split; reflexivity. Qed.

Lemma unloaded_guard_comes_first_witness :
  Main.predict Sample.car (Main.initial Sample.empty_store)
  = (Raise (HTTPException 503 "Model not loaded"),
     Main.initial Sample.empty_store)
  /\ Main.batch_predict Sample.eleven (Main.initial Sample.empty_store)
     = (Raise (HTTPException 503 "Model not loaded"),
        Main.initial Sample.empty_store)
  /\ Main.health_check (Main.initial Sample.empty_store)
     = (Raise (HTTPException 503 "Model not loaded"),
        Main.initial Sample.empty_store).
Proof.
  apply unloaded_guard_comes_first. reflexivity.
Defined.

Lemma predict_content_type_gate_witness :
  Main.predict Sample.text_upload Sample.served
  = (Raise (HTTPException 400
              "Invalid file type. Please upload an image file."),
     Sample.served).
Proof.
  exact (predict_content_type_gate (H := Sample.platform) Sample.served
           [Sample.logits] Sample.text_upload eq_refl eq_refl).
Defined.

Lemma predict_answers_200_or_500_witness :
  exists evs,
    snd (Main.predict Sample.car Sample.served)
    = {| Main.session := Main.session Sample.served;
         Main.disk := Main.disk Sample.served;
         Main.events := Main.events Sample.served ++ evs |}
    /\ inference_calls evs <= 1
    /\ ((exists p,
           fst (Main.predict Sample.car Sample.served)
           = Ok (JSONResponse 200
                   (JDict [("success", JBool true);
                           ("prediction", p);
                           ("filename", JStr (filename Sample.car))])))
        \/ (exists e,
              fst (Main.predict Sample.car Sample.served)
              = Raise (HTTPException 500
                         ("Prediction failed: " ++ str_exn e))
              /\ In (Log "ERROR" ("Prediction error: " ++ str_exn e)) evs)).
Proof.
  apply (predict_answers_200_or_500 Sample.served [Sample.logits]
           Sample.car "image/jpeg"); reflexivity.
Defined.

Lemma predict_agrees_with_batch_witness :
  match fst (Main.batch_try [Sample.nan_scores] Sample.car
               Sample.served_nan) with
  | Ok j =>
      exists label class_index confidence,
        j = JDict [("filename", JStr (filename Sample.car));
                   ("success", JBool true);
                   ("prediction",
                    Main.prediction label class_index confidence)]
        /\ fst (Main.predict Sample.car Sample.served_nan)
           = if is_finite confidence
             then Ok (JSONResponse 200
                        (JDict [("success", JBool true);
                                ("prediction",
                                 Main.prediction label class_index
                                   confidence);
                                ("filename", JStr (filename Sample.car))]))
             else Raise (HTTPException 500
                           ("Prediction failed: "
                            ++ str_exn (out_of_range confidence)))
  | Raise e =>
      fst (Main.predict Sample.car Sample.served_nan)
      = Raise (HTTPException 500 ("Prediction failed: " ++ str_exn e))
  end.
Proof.
  apply (predict_agrees_with_batch Sample.served_nan [Sample.nan_scores]
           Sample.car "image/jpeg"); reflexivity.
Defined.

Lemma batch_reads_each_upload_once_witness :
  exists blocks,
    snd (Main.batch_predict Sample.three Sample.served)
    = {| Main.session := Main.session Sample.served;
         Main.disk := Main.disk Sample.served;
         Main.events := Main.events Sample.served ++ concat blocks |}
    /\ Forall2 (fun file evs => uploads_read evs = [filename file]
                                /\ inference_calls evs <= 1)
         Sample.three blocks
    /\ uploads_read (concat blocks) = map filename Sample.three.
Proof.
  apply (batch_reads_each_upload_once Sample.served [Sample.logits]).
  - reflexivity.
  - simpl. lia.
Defined.

Lemma batch_predict_not_rendered_witness :
  exists x blocks,
    is_finite x = false
    /\ Main.batch_predict [Sample.car] Sample.served_nan
       = (Raise (out_of_range x),
          {| Main.session := Main.session Sample.served_nan;
             Main.disk := Main.disk Sample.served_nan;
             Main.events := Main.events Sample.served_nan ++ concat blocks |})
    /\ uploads_read (concat blocks) = map filename [Sample.car].
Proof.
  apply (batch_predict_not_rendered Sample.served_nan [Sample.nan_scores]).
  - reflexivity.
  - simpl. lia.
  - intros Hall. apply Forall_cons in Hall as [Hcar _].
    discriminate (Hcar "pixels" [Sample.nan_scores] 1%Z NaN
                    eq_refl eq_refl eq_refl).
Defined.

Lemma handlers_only_log_witness :
  exists evs,
    Main.adds Sample.served evs (snd (Main.predict Sample.car Sample.served)).
Proof.
  apply (proj1 handlers_only_log Sample.car Sample.served
           (fst (Main.predict Sample.car Sample.served))).
  apply surjective_pairing.
Defined.

Lemma serving_is_healthy_witness :
  Main.health_check Sample.served
  = (Ok (JDict [("status", JStr "healthy"); ("model", JStr "loaded")]),
     Sample.served)
  /\ exists j, Main.root Sample.served = (Ok j, Sample.served)
               /\ field "model_loaded" j = Some (JBool true).
Proof.
  apply serving_is_healthy.
  apply (Main.serving_startup (H := Sample.platform)
           (Sample.disk_with Sample.logits)).
  reflexivity.
Defined.

Lemma health_after_startup_witness :
  exists st1 j r,
    Scripts.startup_event (Scripts.initial Sample.empty_store) = (Ok tt, st1)
    /\ Scripts.health_check "2025-10-14T10:30:00" st1 = (Ok j, st1)
    /\ Scripts.root st1 = (Ok r, st1)
    /\ field "timestamp" j = Some (JStr "2025-10-14T10:30:00")
    /\ field "model_loaded" r = field "model_loaded" j
    /\ ((path_exists Scripts.model_path
           (Scripts.disk (Scripts.initial Sample.empty_store)) = true
         /\ exists sess,
             InferenceSession Scripts.model_path
               (Scripts.disk (Scripts.initial Sample.empty_store)) = Ok sess)
        -> field "status" j = Some (JStr "healthy")
           /\ field "model_loaded" j = Some (JBool true))
    /\ (~ (path_exists Scripts.model_path
             (Scripts.disk (Scripts.initial Sample.empty_store)) = true
           /\ exists sess,
               InferenceSession Scripts.model_path
                 (Scripts.disk (Scripts.initial Sample.empty_store))
               = Ok sess)
        -> field "status" j = Some (JStr "degraded")
           /\ field "model_loaded" j = Some (JBool false)).
Proof.
  apply health_after_startup. reflexivity.
Defined.

Lemma boot_completes_witness :
  exists st, Scripts.boot Sample.empty_store = (Ok tt, st).
Proof.
  apply boot_completes. intros p d0 _. simpl. unfold Sample.mkdir_p.
  destruct (Sample.dirs d0 !! p); eauto.
Defined.

Lemma predict_while_unloaded_witness :
  Scripts.predict "2025-10-14T10:30:00" Sample.car Sample.degraded
  = (Raise (HTTPException 500 "Model not loaded"),
     {| Scripts.ort_session := None;
        Scripts.disk := Scripts.disk Sample.degraded;
        Scripts.events := Scripts.events Sample.degraded
                          ++ [ReadUpload (filename Sample.car)] |}).
Proof.
  apply (predict_while_unloaded (H := Sample.platform) "2025-10-14T10:30:00" Sample.car
           "image/jpeg" "pixels" "pixels"); reflexivity.
Defined.

Lemma predict_raises_only_http_witness :
  exists status detail,
    HTTPException 500 "Model not loaded" = HTTPException status detail.
Proof.
  apply (predict_raises_only_http (H := Sample.platform) "2025-10-14T10:30:00" Sample.car
           Sample.degraded (HTTPException 500 "Model not loaded")
           {| Scripts.ort_session := None;
              Scripts.disk := Scripts.disk Sample.degraded;
              Scripts.events := Scripts.events Sample.degraded
                                ++ [ReadUpload "car.jpg"] |}).
  reflexivity.
Defined.

Lemma predict_answers_failures_in_body_witness :
  Scripts.predict "2025-10-14T10:30:00" Sample.broken_upload Sample.loaded
  = (Ok (JSONResponse 500
           (JDict [("success", JBool false);
                   ("error",
                    JStr (str_exn (PyException "UnidentifiedImageError"
                                     "cannot identify image file")));
                   ("message", JStr "Prediction failed")])),
     {| Scripts.ort_session := Scripts.ort_session Sample.loaded;
        Scripts.disk := Scripts.disk Sample.loaded;
        Scripts.events := Scripts.events Sample.loaded
                          ++ [ReadUpload (filename Sample.broken_upload);
                              Print ("❌ Error during prediction:" ++ nl);
                              PrintExc
                                (PyException "UnidentifiedImageError"
                                   "cannot identify image file")] |}).
Proof.
  apply (proj2 (predict_answers_failures_in_body (H := Sample.platform)
                  "2025-10-14T10:30:00" Sample.broken_upload Sample.loaded)
           "image/jpeg"); reflexivity.
Defined.

Lemma predict_image_two_classes_witness :
  exists m p0 p1,
    np_max Sample.logits = Ok m
    /\ Scripts.softmax Sample.logits m = [p0; p1]
    /\ let front := (is_nan p0 || float_le p1 p0)%bool in
       let cls := if front then "front" else "rear" in
       let p := if front then p0 else p1 in
       Scripts.predict_image (H := Sample.platform) "pixels" Sample.loaded
       = (Ok [("predicted_class", JStr cls);
              ("confidence", JFloat (Scripts.percent p));
              ("probabilities",
               JDict [("front", JFloat (Scripts.percent p0));
                      ("rear", JFloat (Scripts.percent p1))])],
          {| Scripts.ort_session := Scripts.ort_session Sample.loaded;
             Scripts.disk := Scripts.disk Sample.loaded;
             Scripts.events := Scripts.events Sample.loaded ++ [SessionRun] |})
       /\ dict_get cls [("front", JFloat (Scripts.percent p0));
                        ("rear", JFloat (Scripts.percent p1))]
          = Some (JFloat (Scripts.percent p)).
Proof.
  apply (predict_image_two_classes (H := Sample.platform) "pixels" Sample.loaded
           [Sample.logits] "pixels"
           {| name := "images"; shape := "[1, 3, 224, 224]" |} []
           (Finite 2) (Finite (1 # 2)) [] []); reflexivity.
Defined.

Lemma predict_image_too_few_outputs_witness :
  exists e evs,
    Scripts.predict_image (H := Sample.platform) "pixels" Sample.one_output
    = (Raise (HTTPException 500 ("Prediction error: " ++ str_exn e)),
       {| Scripts.ort_session := Scripts.ort_session Sample.one_output;
          Scripts.disk := Scripts.disk Sample.one_output;
          Scripts.events := Scripts.events Sample.one_output ++ evs |})
    /\ inference_calls evs = 1.
Proof.
  apply (predict_image_too_few_outputs (H := Sample.platform) "pixels" Sample.one_output
           [[Finite 1]] "pixels"
           {| name := "images"; shape := "[1, 3, 224, 224]" |} []
           [Finite 1] [] []); try reflexivity; simpl; lia.
Defined.

(** The texts of NumPy for a row of one score and for a row without
    scores. *)
Example predict_image_short_rows :
  fst (Scripts.predict_image (H := Sample.platform) "pixels"
         Sample.one_output)
  = Raise (HTTPException 500
             ("Prediction error: "
              ++ "index 1 is out of bounds for axis 0 with size 1"))
  /\ fst (Scripts.predict_image (H := Sample.platform) "pixels"
            Sample.no_output)
     = Raise (HTTPException 500
                ("Prediction error: "
                 ++ "zero-size array to reduction operation maximum "
                 ++ "which has no identity")).
Proof. split; vm_compute; reflexivity. Qed.

Lemma predict_image_index_error_witness :
  Scripts.predict_image (H := Sample.platform) "pixels" Sample.three_outputs
  = (Raise (HTTPException 500
              ("Prediction error: "
               ++ str_exn (PyException "IndexError"
                             "list index out of range"))),
     {| Scripts.ort_session := Scripts.ort_session Sample.three_outputs;
        Scripts.disk := Scripts.disk Sample.three_outputs;
        Scripts.events :=
          Scripts.events Sample.three_outputs
          ++ [SessionRun;
              Print ("❌ Prediction failed: "
                     ++ str_exn (PyException "IndexError"
                                   "list index out of range"));
              PrintExc (PyException "IndexError"
                          "list index out of range")] |}).
Proof.
  apply (predict_image_index_error (H := Sample.platform) "pixels" Sample.three_outputs
           [[Finite 0; Finite 0; Finite 1]] "pixels"
           {| name := "images"; shape := "[1, 3, 224, 224]" |} []
           [Finite 0; Finite 0; Finite 1] [] [] (Finite 1) 2);
    try reflexivity; simpl; lia.
Defined.

Lemma correction_not_decoded_saves_nothing_witness :
  Scripts.correct_prediction "20251014_103000" Sample.broken_upload
    "front" "rear" Sample.forty_nine
  = (Ok (JSONResponse 500
           (JDict [("success", JBool false);
                   ("error",
                    JStr (str_exn (PyException "UnidentifiedImageError"
                                     "cannot identify image file")));
                   ("message", JStr "Correction failed")])),
     {| Scripts.ort_session := Scripts.ort_session Sample.forty_nine;
        Scripts.disk := Scripts.disk Sample.forty_nine;
        Scripts.events := Scripts.events Sample.forty_nine
                          ++ [ReadUpload (filename Sample.broken_upload);
                              Print ("❌ Correction error:" ++ nl);
                              PrintExc
                                (PyException "UnidentifiedImageError"
                                   "cannot identify image file")] |}).
Proof.
  apply (correction_not_decoded_saves_nothing (H := Sample.platform) "20251014_103000"
           Sample.broken_upload "front" "rear" Sample.forty_nine).
  - simpl. auto.
  - left. reflexivity.
Defined.

Lemma get_stats_missing_directories_witness :
  exists resp,
    Scripts.get_stats (Scripts.initial Sample.bare)
    = (Ok resp, Scripts.initial Sample.bare)
    /\ status_code resp = 200%Z
    /\ Scripts.tally resp = Some (0%Z, 0%Z, 0%Z).
Proof.
  apply get_stats_missing_directories; reflexivity.
Defined.

Lemma stats_agree_with_correction_witness :
  exists resp',
    Scripts.get_stats (snd (Sample.correct "rear" 59 Sample.forty_nine))
    = (Ok resp', snd (Sample.correct "rear" 59 Sample.forty_nine))
    /\ Scripts.tally resp'
       = Scripts.tally
           (Sample.answer (fst (Sample.correct "rear" 59 Sample.forty_nine))).
Proof.
  apply (stats_agree_with_correction (H := Sample.platform) "20251014_103059" Sample.car
           "front" "rear" Sample.forty_nine); reflexivity.
Defined.

Lemma save_path_below_class_directory_witness :
  Scripts.save_path "20251014_103000" Sample.car "front"
  = "corrections/" ++ "front" ++ "/" ++ "20251014_103000" ++ "_"
    ++ filename Sample.car
  /\ (Scripts.slash_free ("20251014_103000" ++ "_" ++ filename Sample.car) ->
      dirname (Scripts.save_path "20251014_103000" Sample.car "front")
      = "corrections/" ++ "front").
Proof.
  apply save_path_below_class_directory.
  - simpl. auto.
  - reflexivity.
Defined.
